(** * crossplane-go: the REST handlers of [main.go], embedded and verified

    The program is one Go file: HTTP handlers that decode a JSON request,
    build or load a resource manifest, and reach the control plane through
    external processes ([kubectl], [openstack]) and manifest files.

    The embedding keeps the handlers' control flow statement by statement.
    What the handlers call but the repository does not define (the YAML and
    JSON libraries, the file system's failures, the external processes) is
    collected in one record of oracles, [Env]; every theorem holds for every
    [Env].  The effects of a handler are explicit: a handler is a function
    from a world (files and the trace of effects so far) to an outcome and
    a new world. *)

From Stdlib Require Import ZArith String Ascii List.
From Stdlib Require Import HexadecimalString.
From stdpp Require Import base option gmap strings list pretty.

Set Warnings "-register-all".
Open Scope string_scope.
Open Scope Z_scope.

(** ** Go values

    The dynamic values the handlers build and inspect.  Each constructor is
    one Go dynamic type, because the type assertions of [resizeVM] and
    [handleVMAction] succeed on one dynamic type only.  Go maps are finite
    maps with unique keys and no order: [gmap]. *)

(** Keys of a [map[interface{}]interface{}], as the YAML library produces
    them for nested mappings: scalars. *)
Inductive key :=
| KNil
| KBool (b : bool)
| KInt (z : Z)
| KString (s : string).

Global Instance key_eq_dec : EqDecision key.
Proof. solve_decision. Defined.

Definition key_to_sum (k : key) : unit + bool + Z + string :=
  match k with
  | KNil => inl (inl (inl tt))
  | KBool b => inl (inl (inr b))
  | KInt z => inl (inr z)
  | KString s => inr s
  end.

Definition key_of_sum (x : unit + bool + Z + string) : key :=
  match x with
  | inl (inl (inl _)) => KNil
  | inl (inl (inr b)) => KBool b
  | inl (inr z) => KInt z
  | inr s => KString s
  end.

Global Instance key_countable : Countable key.
Proof. apply (inj_countable' key_to_sum key_of_sum). by intros []. Defined.

Inductive value :=
| VNil                                    (* nil *)
| VBool (b : bool)                        (* bool *)
| VInt (z : Z)                            (* int *)
| VFloat (bits : Z)                       (* float64, by its bit pattern: never inspected *)
| VString (s : string)                    (* string *)
| VStrings (l : list string)              (* []string *)
| VSlice (l : list value)                 (* []interface{} *)
| VMapSS (m : gmap string string)         (* map[string]string *)
| VMapsSS (l : list (gmap string string)) (* []map[string]string *)
| VMapSI (m : gmap string value)          (* map[string]interface{} *)
| VMapII (m : gmap key value).            (* map[interface{}]interface{} *)

(** ** JSON request bodies

    A request body is the JSON text the decoder reads.  Its syntax tree is
    kept as written: the members of an object in their order, with their
    duplicates, because [Decode] assigns them one after the other. *)
Module JSON.

(** A number literal: a plain integer literal ([-0] is [NInt 0]), or a
    literal with a fraction or an exponent, kept as its text. *)
Inductive number :=
| NInt (z : Z)
| NReal (lit : string).

Inductive json :=
| JNull
| JBool (b : bool)
| JNum (n : number)
| JStr (s : string)
| JArr (l : list json)
| JObj (members : list (string * json)).

(** [int] is 64 bits wide. *)
Definition int_min : Z := - 2 ^ 63.
Definition int_max : Z := 2 ^ 63 - 1.
Definition fits_int (z : Z) : bool := (int_min <=? z) && (z <=? int_max).

(** Member names are matched to struct fields exactly first, and then
    under case folding.  A name is the UTF-8 text of the member's string.
    The tags of this program are ASCII letters, and the characters that
    fold to an ASCII letter are its other case and, for [k] and [s] only,
    the Kelvin sign U+212A (bytes E2 84 AA) and the long s U+017F (bytes
    C5 BF).  In UTF-8 the bytes E2 and C5 only ever start a character, so
    the two are found by their bytes. *)
Definition fold_ascii (c : ascii) : ascii :=
  let n := nat_of_ascii c in
  if ((97 <=? n)%nat && (n <=? 122)%nat)%bool then ascii_of_nat (n - 32) else c.

Definition is_byte (n : nat) (c : ascii) : bool := Nat.eqb (nat_of_ascii c) n.

Fixpoint fold_name (s : string) : string :=
  match s with
  | EmptyString => EmptyString
  | String a r =>
      let one_byte := String (fold_ascii a) (fold_name r) in
      match r with
      | String b r1 =>
          if is_byte 197 a && is_byte 191 b then String "S" (fold_name r1)
          else
            match r1 with
            | String c r2 =>
                if is_byte 226 a && is_byte 132 b && is_byte 170 c
                then String "K" (fold_name r2)
                else one_byte
            | EmptyString => one_byte
            end
      | EmptyString => one_byte
      end
  end.

Section Fields.
(** The fields of one struct, in declaration order, and their tags. *)
Context {F : Type} (fields : list F) (tag : F → string).

Definition field_of (name : string) : option F :=
  match find (λ f, String.eqb (tag f) name) fields with
  | Some f => Some f
  | None => find (λ f, String.eqb (fold_name (tag f)) (fold_name name)) fields
  end.

(** No member of the object is assigned to field [f]. *)
Definition absent (f : F) (members : list (string * json)) : Prop :=
  Forall (λ kv, field_of kv.1 ≠ Some f) members.
End Fields.

(** Assigning a JSON value to a Go variable of a given type.  [None] is
    an [UnmarshalTypeError]: [Decode] goes on with the next member but
    returns the error at the end, and every handler gives up on it.
    [null] leaves strings and numbers as they were and sets pointers and
    slices to nil. *)
Definition to_string (old : string) (v : json) : option string :=
  match v with
  | JNull => Some old
  | JStr s => Some s
  | _ => None
  end.

Definition to_int (old : Z) (v : json) : option Z :=
  match v with
  | JNull => Some old
  | JNum (NInt z) => if fits_int z then Some z else None
  | _ => None
  end.

(** [*int]: nil is [None]. *)
Definition to_int_ptr (v : json) : option (option Z) :=
  match v with
  | JNull => Some None
  | JNum (NInt z) => if fits_int z then Some (Some z) else None
  | _ => None
  end.

(** A [[]string] while [Decode] runs: the elements of the slice, and what
    its array holds past the length of the slice (the elements of a longer
    array assigned before).  Where the array ends, it goes on with zero
    strings: growing it copies all it holds. *)
Record slice := Slice { elements : list string; spare : list string }.

(** The elements of a JSON array are assigned one by one to the elements
    of the array under the slice: a [null] element leaves there the string
    that was there. *)
Fixpoint assign_elements (array : list string) (l : list json) : option (list string) :=
  match l with
  | [] => Some []
  | v :: l' =>
      s ← to_string (hd "" array) v;
      rest ← assign_elements (tl array) l';
      Some (s :: rest)
  end.

(** [[]string]: [null] sets the slice to nil, an empty array to a new empty
    slice; another array is assigned into the array of the slice, and the
    slice is cut or extended to its length. *)
Definition to_strings (old : slice) (v : json) : option slice :=
  match v with
  | JNull => Some (Slice [] [])
  | JArr [] => Some (Slice [] [])
  | JArr l =>
      let array := (elements old ++ spare old)%list in
      els ← assign_elements array l;
      Some (Slice els (drop (length l) array))
  | _ => None
  end.

(** [json.NewDecoder(r.Body).Decode(&data)] for a struct [data] that
    starts at [zero].  [body] is the first JSON text of the request body,
    the only one [Decode] reads; it is [None] when there is none (a syntax
    error, or an empty body).  A text that is neither an object nor [null]
    cannot be assigned to a struct. *)
Definition decode {D : Type} (assign : D → string → json → option D)
    (zero : D) (body : option json) : option D :=
  match body with
  | None => None
  | Some JNull => Some zero
  | Some (JObj members) =>
      foldl (λ acc kv, d ← acc; assign d kv.1 kv.2) (Some zero) members
  | Some _ => None
  end.

End JSON.
Import JSON.

(** ** Errors, responses, effects *)

(** The newline of a Go string literal. *)
Definition newline : string := String (ascii_of_nat 10) EmptyString.

(** A Go [error], as far as a handler can tell errors apart: where it came
    from, and the text it prints with [%v]. *)
Inductive error :=
| ErrDecode                               (* returned by [Decode] *)
| ErrLib (msg : string)                   (* returned by os, exec, yaml or json *)
| ErrWrap (prefix : string) (cause : error). (* fmt.Errorf("prefix: %w", cause) *)

(** What a handler writes to the [ResponseWriter].  [ErrorText] is
    [http.Error]: the message, printed on a line of its own.  A message
    formatted from an error keeps the error apart from the text around
    it. *)
Inductive body :=
| ErrorText (msg : string)
| ErrorOf (msg : string) (err : error) (details : string)
| Encoded (m : gmap string string).       (* json.NewEncoder(w).Encode(map[string]string{...}) *)

Record response := Response { status : Z; payload : body }.

Definition StatusOK : Z := 200.
Definition StatusBadRequest : Z := 400.
Definition StatusNotFound : Z := 404.
Definition StatusConflict : Z := 409.
Definition StatusInternalServerError : Z := 500.

Definition http_Error (msg : string) (code : Z) : response :=
  Response code (ErrorText msg).

Definition http_ErrorOf (msg : string) (err : error) (details : string) (code : Z) : response :=
  Response code (ErrorOf msg err details).

(** A response written without [WriteHeader] has status 200. *)
Definition encode_message (m : gmap string string) : response :=
  Response StatusOK (Encoded m).

(** [exec.Command(name, args...)]. *)
Record command := Command { cmd_name : string; cmd_args : list string }.

(** What [cmd.Run] gives: its error, and what the process printed. *)
Record run_result := RunResult {
  run_err : option error;
  run_stdout : string;
  run_stderr : string
}.

(** The effects a handler has on the outside, in the order they happen. *)
Inductive event :=
| EvStat (path : string)
| EvReadFile (path : string)
| EvWriteFile (path data : string)
| EvRemove (path : string)
| EvRun (c : command).

(** The file system as the handlers address it, and the trace so far. *)
Record world := World {
  files : gmap string string;
  trace : list event
}.

(** What the handlers call and the repository does not define. *)
Record Env := {
  (** [os.TempDir()] and [os.Getpid()] *)
  TempDir : string;
  Getpid : N;
  (** [filepath.Join] of a directory and one more element *)
  filepath_Join : string → string → string;
  (** [yaml.Marshal] *)
  yaml_Marshal : value → error + string;
  (** [yaml.Unmarshal] and [json.Unmarshal] into a [map[string]interface{}] *)
  yaml_Unmarshal : string → error + gmap string value;
  json_Unmarshal : string → error + gmap string value;
  (** [ioutil.WriteFile] failing: the error, and the content the failed
      write leaves at the path, if it leaves a file there *)
  WriteFile_fault : string → string → option (error * option string);
  (** [os.Stat] failing with an error that is not [ErrNotExist] (a name
      too long, a directory that cannot be searched, ...) *)
  Stat_fault : string → option error;
  (** [ioutil.ReadFile] failing on a file that is there *)
  ReadFile_fault : string → option error;
  (** running an external process, which sees the files *)
  Run : command → gmap string string → run_result
}.

(** ** The handler monad

    A statement either goes on with a value, or the handler has written its
    response and returned, or it has panicked. *)
Inductive result (A : Type) :=
| Value (a : A)
| Return (r : response)
| Panic.
Arguments Value {A} a.
Arguments Return {A} r.
Arguments Panic {A}.

Definition M (A : Type) : Type := world → result A * world.

Global Instance M_ret : MRet M := λ A a w, (Value a, w).

Global Instance M_bind : MBind M := λ A B f m w,
  match m w with
  | (Value a, w') => f a w'
  | (Return r, w') => (Return r, w')
  | (Panic, w') => (Panic, w')
  end.

(** Write the response and return. *)
Definition respond {A} (r : response) : M A := λ w, (Return r, w).

Definition panic {A} : M A := λ w, (Panic, w).

Definition emit (e : event) : M unit :=
  λ w, (Value tt, World (files w) (trace w ++ [e])).

(** [defer cleanup] followed by the rest of the function: the cleanup runs
    when the rest is over, however it ended. *)
Definition defer {A} (cleanup : M unit) (rest : M A) : M A := λ w,
  let '(r, w') := rest w in (r, (cleanup w').2).

(** A handler always ends by a response or a panic. *)
Inductive outcome :=
| Responded (r : response)
| Panicked.

Definition serve (h : M Empty_set) (w : world) : outcome * world :=
  match h w with
  | (Value a, _) => match a with end
  | (Return r, w') => (Responded r, w')
  | (Panic, w') => (Panicked, w')
  end.

(** A world with the given files and nothing done yet. *)
Definition start (fs : gmap string string) : world := World fs [].

(** ** The request structs

    One module per handler's [data] struct: its fields with their [json]
    tags, and [Decode], which assigns the members of the body in their
    order.  A member that matches no field is skipped. *)

Module RegisterTeam.
Record data := Data { Name : string }.
Inductive field := FName.
Definition fields : list field := [FName].
Definition tag (f : field) : string := match f with FName => "name" end.
Definition zero : data := Data "".
Definition assign (d : data) (name : string) (v : json) : option data :=
  match field_of fields tag name with
  | Some FName => s ← to_string (Name d) v; Some (Data s)
  | None => Some d
  end.
Definition Decode : option json → option data := decode assign zero.
End RegisterTeam.

Module CreateVM.
Record data := Data {
  Name : string;
  ImageID : string;
  FlavorID : string;
  NetworkID : string;
  SecurityGroups : list string
}.
Inductive field := FName | FImageID | FFlavorID | FNetworkID | FSecurityGroups.
Definition fields : list field :=
  [FName; FImageID; FFlavorID; FNetworkID; FSecurityGroups].
Definition tag (f : field) : string :=
  match f with
  | FName => "name"
  | FImageID => "imageId"
  | FFlavorID => "flavorId"
  | FNetworkID => "networkId"
  | FSecurityGroups => "securityGroups"
  end.
Definition zero : data := Data "" "" "" "" [].
(** The struct while [Decode] runs: with what the array of
    [SecurityGroups] holds past the slice. *)
Record state := State { decoded : data; array_rest : list string }.
Definition assign (st : state) (name : string) (v : json) : option state :=
  let d := decoded st in
  match field_of fields tag name with
  | Some FName =>
      s ← to_string (Name d) v;
      Some (State (Data s (ImageID d) (FlavorID d) (NetworkID d) (SecurityGroups d))
              (array_rest st))
  | Some FImageID =>
      s ← to_string (ImageID d) v;
      Some (State (Data (Name d) s (FlavorID d) (NetworkID d) (SecurityGroups d))
              (array_rest st))
  | Some FFlavorID =>
      s ← to_string (FlavorID d) v;
      Some (State (Data (Name d) (ImageID d) s (NetworkID d) (SecurityGroups d))
              (array_rest st))
  | Some FNetworkID =>
      s ← to_string (NetworkID d) v;
      Some (State (Data (Name d) (ImageID d) (FlavorID d) s (SecurityGroups d))
              (array_rest st))
  | Some FSecurityGroups =>
      sl ← to_strings (Slice (SecurityGroups d) (array_rest st)) v;
      Some (State (Data (Name d) (ImageID d) (FlavorID d) (NetworkID d) (elements sl))
              (spare sl))
  | None => Some st
  end.
Definition Decode (body : option json) : option data :=
  decoded <$> decode assign (State zero []) body.
End CreateVM.

Module ResizeVM.
Record data := Data { FlavorID : string }.
Inductive field := FFlavorID.
Definition fields : list field := [FFlavorID].
Definition tag (f : field) : string := match f with FFlavorID => "flavorId" end.
Definition zero : data := Data "".
Definition assign (d : data) (name : string) (v : json) : option data :=
  match field_of fields tag name with
  | Some FFlavorID => s ← to_string (FlavorID d) v; Some (Data s)
  | None => Some d
  end.
Definition Decode : option json → option data := decode assign zero.
End ResizeVM.

Module ScaleVM.
(** [Replicas *int]: "Use pointer to distinguish between missing and 0". *)
Record data := Data { Replicas : option Z }.
Inductive field := FReplicas.
Definition fields : list field := [FReplicas].
Definition tag (f : field) : string := match f with FReplicas => "replicas" end.
Definition zero : data := Data None.
Definition assign (d : data) (name : string) (v : json) : option data :=
  match field_of fields tag name with
  | Some FReplicas => p ← to_int_ptr v; Some (Data p)
  | None => Some d
  end.
Definition Decode : option json → option data := decode assign zero.
End ScaleVM.

Module AttachDisk.
Record data := Data { VolumeID : string; InstanceID : string }.
Inductive field := FVolumeID | FInstanceID.
Definition fields : list field := [FVolumeID; FInstanceID].
Definition tag (f : field) : string :=
  match f with FVolumeID => "volumeId" | FInstanceID => "instanceId" end.
Definition zero : data := Data "" "".
Definition assign (d : data) (name : string) (v : json) : option data :=
  match field_of fields tag name with
  | Some FVolumeID => s ← to_string (VolumeID d) v; Some (Data s (InstanceID d))
  | Some FInstanceID => s ← to_string (InstanceID d) v; Some (Data (VolumeID d) s)
  | None => Some d
  end.
Definition Decode : option json → option data := decode assign zero.
End AttachDisk.

Module CreateBlockVolume.
Record data := Data { Name : string; Size : Z; Description : string }.
Inductive field := FName | FSize | FDescription.
Definition fields : list field := [FName; FSize; FDescription].
Definition tag (f : field) : string :=
  match f with FName => "name" | FSize => "size" | FDescription => "description" end.
Definition zero : data := Data "" 0 "".
Definition assign (d : data) (name : string) (v : json) : option data :=
  match field_of fields tag name with
  | Some FName => s ← to_string (Name d) v; Some (Data s (Size d) (Description d))
  | Some FSize => z ← to_int (Size d) v; Some (Data (Name d) z (Description d))
  | Some FDescription => s ← to_string (Description d) v; Some (Data (Name d) (Size d) s)
  | None => Some d
  end.
Definition Decode : option json → option data := decode assign zero.
End CreateBlockVolume.

(** ** The handlers *)

Section Handlers.
Context (env : Env).

(** *** The os, ioutil and exec calls *)

(** [os.Remove]: the file is unlinked; on a path with no file the call
    fails and changes nothing.  The handlers drop its error.  A file system
    that refuses to unlink a file that is there is not modelled. *)
Definition os_Remove (path : string) : M unit := λ w,
  (Value tt, World (delete path (files w)) (trace w ++ [EvRemove path])).

(** [_, err := os.Stat(path); os.IsNotExist(err)]: true when there is no
    file at the path and [Stat] says so; [Stat] failing for another reason
    is not a missing file. *)
Definition os_Stat_IsNotExist (path : string) : M bool := λ w,
  (Value (bool_decide (files w !! path = None)
          && bool_decide (Stat_fault env path = None)),
   World (files w) (trace w ++ [EvStat path])).

Definition ioutil_ReadFile (path : string) : M (error + string) := λ w,
  let w' := World (files w) (trace w ++ [EvReadFile path]) in
  match files w !! path with
  | None => (Value (inl (ErrLib ("open " ++ path ++ ": no such file or directory"))), w')
  | Some content =>
      match ReadFile_fault env path with
      | Some err => (Value (inl err), w')
      | None => (Value (inr content), w')
      end
  end.

Definition ioutil_WriteFile (path data : string) : M (option error) := λ w,
  let t := (trace w ++ [EvWriteFile path data])%list in
  match WriteFile_fault env path data with
  | None => (Value None, World (<[path := data]> (files w)) t)
  | Some (err, Some partial) => (Value (Some err), World (<[path := partial]> (files w)) t)
  | Some (err, None) => (Value (Some err), World (files w) t)
  end.

(** [cmd.Run()] *)
Definition cmd_Run (c : command) : M run_result := λ w,
  (Value (Run env c (files w)), World (files w) (trace w ++ [EvRun c])).

(** *** applyYAML *)
Definition applyYAML (yamlContent : value) (filename : string) : M (option error) :=
  match yaml_Marshal env yamlContent with
  | inl err => mret (Some (ErrWrap "failed to marshal YAML" err))
  | inr data =>
      werr ← ioutil_WriteFile filename data;
      match werr with
      | Some err => mret (Some (ErrWrap "failed to write YAML to file" err))
      | None =>
          r ← cmd_Run (Command "kubectl" ["apply"; "-f"; filename]);
          match run_err r with
          | Some err => mret (Some (ErrWrap "failed to execute kubectl apply" err))
          | None => mret None
          end
      end
  end.

(** *** registerTeam *)
Definition registerTeam (body : option json) : M Empty_set :=
  match RegisterTeam.Decode body with
  | None => respond (http_ErrorOf "Error decoding request: %v" ErrDecode "" StatusBadRequest)
  | Some data =>
      let Name := RegisterTeam.Name data in
      if String.eqb Name "" then
        respond (http_Error "Missing 'name' in request" StatusBadRequest)
      else
        let namespaceYAML := VMapSI {[
          "apiVersion" := VString "v1";
          "kind" := VString "Namespace";
          "metadata" := VMapSS {[ "name" := Name ]}
        ]} in
        let filename :=
          filepath_Join env (TempDir env) ("namespace-" ++ Name ++ ".yaml") in
        defer (os_Remove filename) (
          err ← applyYAML namespaceYAML filename;
          match err with
          | Some err =>
              respond (http_ErrorOf "Failed to create namespace: %v" err ""
                         StatusInternalServerError)
          | None =>
              respond (encode_message {[
                "message" := "Namespace '" ++ Name ++ "' created successfully." ]})
          end)
  end.

(** *** createVM *)

(** [if len(data.SecurityGroups) == 0 { data.SecurityGroups = []string{"default"} }] *)
Definition default_groups (data : CreateVM.data) : CreateVM.data :=
  match CreateVM.SecurityGroups data with
  | [] => CreateVM.Data (CreateVM.Name data) (CreateVM.ImageID data)
            (CreateVM.FlavorID data) (CreateVM.NetworkID data) ["default"]
  | _ :: _ => data
  end.

Definition instanceYAML (teamID : string) (data : CreateVM.data) : value :=
  VMapSI {[
    "apiVersion" := VString "compute.openstack.crossplane.io/v1alpha1";
    "kind" := VString "InstanceV2";
    "metadata" := VMapSS {[
      "name" := CreateVM.Name data;
      "namespace" := teamID ]};
    "spec" := VMapSI {[
      "forProvider" := VMapSI {[
        "configDrive" := VBool true;
        "flavorId" := VString (CreateVM.FlavorID data);
        "imageId" := VString (CreateVM.ImageID data);
        "name" := VString (CreateVM.Name data);
        "network" := VMapsSS [ {[ "uuid" := CreateVM.NetworkID data ]} ];
        "securityGroups" := VStrings (CreateVM.SecurityGroups data) ]};
      "providerConfigRef" := VMapSS {[ "name" := "provider-openstack-config" ]} ]}
  ]}.

(** The applied-manifest file of a (team, resource) reference. *)
Definition manifest_path (team name : string) : string :=
  filepath_Join env "/home/ubuntu/crossplane-api" (team ++ "-" ++ name ++ ".yaml").

Definition createVM (teamID : string) (body : option json) : M Empty_set :=
  match CreateVM.Decode body with
  | None => respond (http_ErrorOf "Error decoding request: %v" ErrDecode "" StatusBadRequest)
  | Some data =>
      if String.eqb (CreateVM.Name data) "" || String.eqb (CreateVM.ImageID data) ""
         || String.eqb (CreateVM.FlavorID data) "" || String.eqb (CreateVM.NetworkID data) ""
      then respond (http_Error "Missing required fields" StatusBadRequest)
      else
        let data := default_groups data in
        let yamlPath := manifest_path teamID (CreateVM.Name data) in
        err ← applyYAML (instanceYAML teamID data) yamlPath;
        match err with
        | Some err =>
            respond (http_ErrorOf "Failed to provision VM: %v" err ""
                       StatusInternalServerError)
        | None =>
            respond (encode_message {[
              "message" := "VM '" ++ CreateVM.Name data
                ++ "' provisioned successfully in namespace '" ++ teamID ++ "'." ]})
        end
  end.

(** *** resizeVM *)

(** The two nested type assertions and the assignment
    [forProvider["flavorId"] = data.FlavorID].  A Go map is a reference:
    the assignment is seen through [spec] and through [instance], which
    is rebuilt here around the changed map. *)
Definition set_flavor (FlavorID : string) (instance : gmap string value)
    : gmap string value :=
  match instance !! "spec" with
  | Some (VMapII spec) =>
      match spec !! KString "forProvider" with
      | Some (VMapII forProvider) =>
          let forProvider' := <[KString "flavorId" := VString FlavorID]> forProvider in
          <["spec" := VMapII (<[KString "forProvider" := VMapII forProvider']> spec)]> instance
      | _ => instance
      end
  | _ => instance
  end.

Definition resizeVM (teamName vmName : string) (body : option json) : M Empty_set :=
  match ResizeVM.Decode body with
  | None => respond (http_ErrorOf "Error decoding request: %v" ErrDecode "" StatusBadRequest)
  | Some data =>
      if String.eqb (ResizeVM.FlavorID data) "" then
        respond (http_Error "Missing 'flavorId' in request" StatusBadRequest)
      else
        let yamlPath := manifest_path teamName vmName in
        missing ← os_Stat_IsNotExist yamlPath;
        if missing : bool then
          respond (http_Error (yamlPath ++ " not found") StatusNotFound)
        else
          read ← ioutil_ReadFile yamlPath;
          match read with
          | inl err =>
              respond (http_ErrorOf "Failed to read VM YAML: %v" err ""
                         StatusInternalServerError)
          | inr fileContent =>
              match yaml_Unmarshal env fileContent with
              | inl err =>
                  respond (http_ErrorOf "Failed to unmarshal VM YAML: %v" err ""
                             StatusInternalServerError)
              | inr instance =>
                  let instance := set_flavor (ResizeVM.FlavorID data) instance in
                  err ← applyYAML (VMapSI instance) yamlPath;
                  match err with
                  | Some err =>
                      respond (http_ErrorOf "Failed to update VM flavor: %v" err ""
                                 StatusInternalServerError)
                  | None =>
                      respond (encode_message {[
                        "message" := "Flavor for VM '" ++ vmName
                          ++ "' updated successfully." ]})
                  end
              end
          end
  end.

(** *** scaleVM *)

(** [fmt.Sprintf("%d", n)] *)
Definition format_d (n : Z) : string := pretty n.

Definition scale_command (teamID resourceID : string) (replicas : Z) : command :=
  Command "kubectl"
    ["scale"; "deployment/" ++ resourceID; "--replicas=" ++ format_d replicas;
     "-n"; teamID].

Definition scaleVM (teamID resourceID : string) (body : option json) : M Empty_set :=
  match ScaleVM.Decode body with
  | None => respond (http_ErrorOf "Error decoding request: %v" ErrDecode "" StatusBadRequest)
  | Some data =>
      match ScaleVM.Replicas data with
      | None => respond (http_Error "Missing 'replicas' in request" StatusBadRequest)
      | Some replicas =>
          r ← cmd_Run (scale_command teamID resourceID replicas);
          match run_err r with
          | Some err =>
              respond (http_ErrorOf ("Failed to scale VM: %v" ++ newline ++ "%s") err (run_stderr r)
                         StatusInternalServerError)
          | None =>
              respond (encode_message {[
                "message" := "Scaled VM '" ++ resourceID ++ "' to "
                  ++ format_d replicas ++ " replicas." ]})
          end
      end
  end.

(** *** attachDisk *)

(** [fmt.Sprintf("%x", n)] *)
Definition format_x (n : N) : string := NilEmpty.string_of_uint (N.to_hex_uint n).

Definition attachDisk (teamName vmName : string) (body : option json) : M Empty_set :=
  match AttachDisk.Decode body with
  | None => respond (http_ErrorOf "Error decoding request: %v" ErrDecode "" StatusBadRequest)
  | Some data =>
      if String.eqb (AttachDisk.VolumeID data) "" || String.eqb (AttachDisk.InstanceID data) ""
      then respond (http_Error "Missing volumeId or instanceId" StatusBadRequest)
      else
        let nameSuffix := format_x (Getpid env) in
        (* nameSuffix[:8]: slicing past the end of a string panics *)
        if (String.length nameSuffix <? 8)%nat then panic
        else
          let attachmentName := vmName ++ "-attach-" ++ substring 0 8 nameSuffix in
          let volumeAttachment := VMapSI {[
            "apiVersion" := VString "compute.openstack.crossplane.io/v1alpha1";
            "kind" := VString "VolumeAttachmentV2";
            "metadata" := VMapSS {[
              "name" := attachmentName;
              "namespace" := teamName ]};
            "spec" := VMapSI {[
              "instanceId" := VString (AttachDisk.InstanceID data);
              "volumeId" := VString (AttachDisk.VolumeID data);
              "providerConfigRef" := VMapSS {[ "name" := "provider-openstack-config" ]};
              "deletionPolicy" := VString "Delete" ]}
          ]} in
          let yamlPath := filepath_Join env (TempDir env) (attachmentName ++ ".yaml") in
          defer (os_Remove yamlPath) (
            err ← applyYAML volumeAttachment yamlPath;
            match err with
            | Some err =>
                respond (http_ErrorOf "Failed to attach disk: %v" err ""
                           StatusInternalServerError)
            | None =>
                respond (encode_message {[
                  "message" := "Disk attachment request sent: " ++ attachmentName ]})
            end)
  end.

(** *** createBlockVolume *)
Definition createBlockVolume (teamName : string) (body : option json) : M Empty_set :=
  match CreateBlockVolume.Decode body with
  | None => respond (http_ErrorOf "Error decoding request: %v" ErrDecode "" StatusBadRequest)
  | Some data =>
      let Name := CreateBlockVolume.Name data in
      if String.eqb Name "" || (CreateBlockVolume.Size data =? 0)
      then respond (http_Error "Missing required fields (name or size)" StatusBadRequest)
      else
        let volumeManifest := VMapSI {[
          "apiVersion" := VString "blockstorage.openstack.crossplane.io/v1alpha1";
          "kind" := VString "VolumeV3";
          "metadata" := VMapSS {[
            "name" := Name;
            "namespace" := teamName ]};
          "spec" := VMapSI {[
            "forProvider" := VMapSI {[
              "name" := VString Name;
              "size" := VInt (CreateBlockVolume.Size data);
              "description" := VString (CreateBlockVolume.Description data) ]};
            "providerConfigRef" := VMapSS {[ "name" := "provider-openstack-config" ]} ]}
        ]} in
        let tmpFile := filepath_Join env (TempDir env) (Name ++ "-block.yaml") in
        defer (os_Remove tmpFile) (
          match yaml_Marshal env volumeManifest with
          | inl err =>
              respond (http_ErrorOf "Failed to marshal volume manifest: %v" err ""
                         StatusInternalServerError)
          | inr fileContent =>
              werr ← ioutil_WriteFile tmpFile fileContent;
              match werr with
              | Some err =>
                  respond (http_ErrorOf "Failed to write volume manifest to file: %v" err ""
                             StatusInternalServerError)
              | None =>
                  r ← cmd_Run (Command "kubectl" ["apply"; "-f"; tmpFile]);
                  match run_err r with
                  | Some err =>
                      respond (http_ErrorOf
                                 ("Failed to apply block volume manifest: %v" ++ newline ++ "Details: %s")
                                 err (run_stderr r) StatusInternalServerError)
                  | None =>
                      respond (encode_message {[
                        "message" := "Block volume '" ++ Name
                          ++ "' created successfully in namespace '" ++ teamName ++ "'.";
                        "kubectl_output" := run_stdout r ]})
                  end
              end
          end)
  end.

(** *** handleVMAction *)
Definition script : string := "/home/ubuntu/admin.sh".

Definition bash (line : string) : command := Command "bash" ["-c"; line].

Definition statusCmd (vmName : string) : command :=
  bash ("source " ++ script ++ " && openstack server show " ++ vmName ++ " -f json").

(** The [switch action]: the command of an action, if it has one. *)
Definition action_command (teamName vmName action : string) : option command :=
  if String.eqb action "start" then
    Some (bash ("source " ++ script ++ " && openstack server start " ++ vmName))
  else if String.eqb action "stop" then
    Some (bash ("source " ++ script ++ " && openstack server stop " ++ vmName))
  else if String.eqb action "delete" then
    Some (bash ("source " ++ script ++ " && kubectl delete instancev2 " ++ vmName
                  ++ " --namespace " ++ teamName))
  else None.

(** [statusData["OS-EXT-STS:task_state"].(string)]: the string, when the
    member is there and is a string. *)
Definition task_state (statusData : gmap string value) : option string :=
  match statusData !! "OS-EXT-STS:task_state" with
  | Some (VString taskState) => Some taskState
  | _ => None
  end.

(** What follows the busy check: the [switch] and the action's run. *)
Definition run_action (teamName vmName action : string) : M Empty_set :=
  match action_command teamName vmName action with
  | None =>
      respond (http_Error ("Unsupported action '" ++ action ++ "'.") StatusBadRequest)
  | Some cmd =>
      r ← cmd_Run cmd;
      match run_err r with
      | Some err =>
          respond (http_ErrorOf
                     ("Failed to execute action '" ++ action ++ "' on VM '"
                        ++ vmName ++ "': %v" ++ newline ++ "%s")
                     err (run_stderr r) StatusInternalServerError)
      | None =>
          respond (encode_message {[
            "message" := "Action '" ++ action ++ "' executed on VM '"
              ++ vmName ++ "'. Output:" ++ newline ++ run_stdout r ]})
      end
  end.

Definition handleVMAction (teamName vmName action : string) : M Empty_set :=
  st ← cmd_Run (statusCmd vmName);
  match run_err st with
  | Some err =>
      respond (http_ErrorOf ("Failed to fetch VM status: %v" ++ newline ++ "%s") err (run_stderr st)
                 StatusInternalServerError)
  | None =>
      match json_Unmarshal env (run_stdout st) with
      | inl _ => respond (http_Error "Failed to parse VM status" StatusInternalServerError)
      | inr statusData =>
          match task_state statusData with
          | Some taskState =>
              if negb (String.eqb taskState "") then
                respond (http_Error
                           ("VM is currently busy (task_state: " ++ taskState
                              ++ "). Try again later.") StatusConflict)
              else run_action teamName vmName action
          | None => run_action teamName vmName action
          end
      end
  end.

End Handlers.

(** ** Reading outcomes *)

(** The status of the response, when there is one. *)
Definition status_of (o : outcome) : option Z :=
  match o with
  | Responded r => Some (status r)
  | Panicked => None
  end.

(** The member of a [map[string]interface{}] value. *)
Definition member (k : string) (v : value) : option value :=
  match v with
  | VMapSI m => m !! k
  | _ => None
  end.

(** The stored manifest has the nesting [resizeVM] expects: a mapping under
    [spec], and a mapping under its [forProvider]. *)
Definition expected_nesting (instance : gmap string value) : Prop :=
  ∃ spec forProvider,
    instance !! "spec" = Some (VMapII spec)
    ∧ spec !! KString "forProvider" = Some (VMapII forProvider).

(** [spec.forProvider.flavorId] of a stored manifest. *)
Definition flavor_of (instance : gmap string value) : option value :=
  match instance !! "spec" with
  | Some (VMapII spec) =>
      match spec !! KString "forProvider" with
      | Some (VMapII forProvider) => forProvider !! KString "flavorId"
      | _ => None
      end
  | _ => None
  end.


(** [needle] occurs in [text]. *)
Fixpoint occurs_in (needle text : string) : bool :=
  String.prefix needle text
  || match text with
     | EmptyString => false
     | String _ rest => occurs_in needle rest
     end.



Definition missing_required (data : CreateVM.data) : Prop :=
  CreateVM.Name data = "" ∨ CreateVM.ImageID data = ""
  ∨ CreateVM.FlavorID data = "" ∨ CreateVM.NetworkID data = "".

(** [spec.forProvider.securityGroups] of a built manifest. *)
Definition securityGroups_of (manifest : value) : option value :=
  spec ← member "spec" manifest;
  forProvider ← member "forProvider" spec;
  member "securityGroups" forProvider.

(** Once the handler has returned, the file is not there, removing it was
    the last thing done, and it is the only file that was written. *)
Definition cleaned_up (path : string) (w' : world) : Prop :=
  files w' !! path = None
  ∧ last (trace w') = Some (EvRemove path)
  ∧ ∀ p d, EvWriteFile p d ∈ trace w' → p = path.

(** ** A sample environment

    Every external call succeeds; the status query of any server reports
    [powering-on].  The YAML oracle knows the documents used below. *)
Module Sample.

Definition dquote : string := String (ascii_of_nat 34) EmptyString.

Definition busy_status : string :=
  "{" ++ dquote ++ "OS-EXT-STS:task_state" ++ dquote ++ ": "
      ++ dquote ++ "powering-on" ++ dquote ++ "}".

(** A manifest with no [spec]. *)
Definition bare_document : string := "kind: InstanceV2".
Definition bare_manifest : gmap string value := {[ "kind" := VString "InstanceV2" ]}.

(** A manifest with the nesting of [createVM]'s, as [yaml.Unmarshal]
    gives it back: nested mappings are [map[interface{}]interface{}]. *)
Definition stored_manifest (flavor : string) : gmap string value :=
  {[ "kind" := VString "InstanceV2";
     "spec" := VMapII {[
       KString "forProvider" := VMapII {[
         KString "flavorId" := VString flavor;
         KString "name" := VString "vm1" ]} ]} ]}.

Definition marshal (v : value) : error + string :=
  match v with
  | VMapSI m =>
      match m !! "kind" with
      | Some (VString k) => inr ("kind: " ++ k)
      | _ => inr "{}"
      end
  | _ => inl (ErrLib "yaml: cannot marshal")
  end.

Definition unmarshal (doc : string) : error + gmap string value :=
  if String.eqb doc bare_document then inr bare_manifest
  else inl (ErrLib "yaml: did not find expected node content").

Definition status_unmarshal (out : string) : error + gmap string value :=
  if String.eqb out busy_status
  then inr {[ "OS-EXT-STS:task_state" := VString "powering-on" ]}
  else inl (ErrLib "unexpected end of JSON input").

Definition run (c : command) (fs : gmap string string) : run_result :=
  match cmd_args c with
  | ["-c"; line] =>
      if occurs_in "openstack server show" line
      then RunResult None busy_status ""
      else RunResult None "" ""
  | _ => RunResult None "" ""
  end.

Definition env : Env := {|
  TempDir := "/tmp";
  Getpid := 305441741;
  filepath_Join := λ dir elem, dir ++ "/" ++ elem;
  yaml_Marshal := marshal;
  yaml_Unmarshal := unmarshal;
  json_Unmarshal := status_unmarshal;
  WriteFile_fault := λ _ _, None;
  Stat_fault := λ _, None;
  ReadFile_fault := λ _, None;
  Run := run
|}.

(** The same, with an [openstack] that cannot be run. *)
Definition env_down : Env := {|
  TempDir := "/tmp";
  Getpid := 305441741;
  filepath_Join := λ dir elem, dir ++ "/" ++ elem;
  yaml_Marshal := marshal;
  yaml_Unmarshal := unmarshal;
  json_Unmarshal := status_unmarshal;
  WriteFile_fault := λ _ _, None;
  Stat_fault := λ _, None;
  ReadFile_fault := λ _, None;
  Run := λ _ _, RunResult (Some (ErrLib "exit status 1")) "" "Missing value auth-url"
|}.

(** The request bodies of the scenarios. *)
Definition vm1_body : option json :=
  Some (JObj [("name", JStr "vm1"); ("imageId", JStr "img1");
              ("flavorId", JStr "f1"); ("networkId", JStr "net1")]).


Definition f2_body : option json := Some (JObj [("flavorId", JStr "f2")]).

(** The long s (U+017F) and the Kelvin sign (U+212A), in UTF-8. *)
Definition long_s : string :=
  String (ascii_of_nat 197) (String (ascii_of_nat 191) EmptyString).
Definition kelvin : string :=
  String (ascii_of_nat 226) (String (ascii_of_nat 132)
    (String (ascii_of_nat 170) EmptyString)).

(** A file system whose names have at most 255 bytes, and a name of 300. *)
Definition name_too_long (path : string) : option error :=
  if (255 <? String.length path)%nat then Some (ErrLib "file name too long") else None.

Definition long_name : string := foldr String.append "" (replicate 300 "a").

Definition env_short_names : Env := {|
  TempDir := "/tmp";
  Getpid := 305441741;
  filepath_Join := λ dir elem, dir ++ "/" ++ elem;
  yaml_Marshal := marshal;
  yaml_Unmarshal := unmarshal;
  json_Unmarshal := status_unmarshal;
  WriteFile_fault := λ _ _, None;
  Stat_fault := name_too_long;
  ReadFile_fault := name_too_long;
  Run := run
|}.

End Sample.

(** ** The handlers that take no request body *)

Section Queries.
Context (env : Env).

(** *** deleteVM *)
Definition delete_command (teamID resourceID : string) : command :=
  Command "kubectl" ["delete"; "instancev2"; resourceID; "-n"; teamID].

Definition deleteVM (teamID resourceID : string) : M Empty_set :=
  r ← cmd_Run env (delete_command teamID resourceID);
  match run_err r with
  | Some err =>
      respond (http_ErrorOf ("Failed to delete VM: %v" ++ newline ++ "%s") err (run_stderr r)
                 StatusInternalServerError)
  | None =>
      respond (encode_message {[
        "message" := "VM '" ++ resourceID ++ "' deleted from team '" ++ teamID ++ "'." ]})
  end.

(** *** getTeam

    [json.Unmarshal] into an [interface{}], which takes any JSON value: an
    oracle of its own.  The handler ends with
    [json.NewEncoder(w).Encode(result)]: the value it goes on with is the
    value it encodes as its 200 answer. *)
Context (json_Unmarshal_any : string → error + value).

Definition get_command (teamID : string) : command :=
  Command "kubectl" ["get"; "namespace"; teamID; "-o"; "json"].

Definition getTeam (teamID : string) : M value :=
  r ← cmd_Run env (get_command teamID);
  match run_err r with
  | Some err =>
      respond (http_ErrorOf ("Failed to get namespace details: %v" ++ newline ++ "%s") err (run_stderr r)
                 StatusInternalServerError)
  | None =>
      match json_Unmarshal_any (run_stdout r) with
      | inl err =>
          respond (http_ErrorOf "Failed to parse kubectl output: %v" err ""
                     StatusInternalServerError)
      | inr result => mret result
      end
  end.

End Queries.

(** *** hello: the text it prints *)
Definition hello : string := "Crossplane OpenStack API is running.".

(** ** The routes of [main]

    A path is the list of its segments, the texts between its slashes:
    [/] is [[""]], [/teams/a] is [["teams"; "a"]].  A route's template is
    matched segment by segment; a variable [{x}] matches one segment that
    is not empty (the router's [[^/]+]).  The routes are tried in the
    order [main] registers them, and the first whose path and method both
    match is taken; [None] is the router's own 404 or 405. *)
Inductive handler :=
| Hhello | HregisterTeam | HgetTeam | HcreateVM | HresizeVM | HscaleVM
| HattachDisk | HcreateBlockVolume | HhandleVMAction | HdeleteVM.

Inductive segment :=
| Lit (s : string)
| Var (name : string).

Record route := Route {
  route_path : list segment;
  route_handler : handler;
  route_method : string
}.

Definition routes : list route := [
  Route [Lit ""] Hhello "GET";
  Route [Lit "teams"] HregisterTeam "POST";
  Route [Lit "teams"; Var "team_id"] HgetTeam "GET";
  Route [Lit "teams"; Var "team_id"; Lit "vm"] HcreateVM "POST";
  Route [Lit "teams"; Var "team_name"; Lit "vm"; Var "vm_name"; Lit "resize"] HresizeVM "PUT";
  Route [Lit "teams"; Var "team_id"; Lit "vm"; Var "resource_id"; Lit "scale"] HscaleVM "PUT";
  Route [Lit "teams"; Var "team_name"; Lit "vm"; Var "vm_name"; Lit "attach-disk"]
    HattachDisk "POST";
  Route [Lit "teams"; Var "team_name"; Lit "block"] HcreateBlockVolume "POST";
  Route [Lit "teams"; Var "team_name"; Lit "vm"; Var "vm_name"; Var "action"]
    HhandleVMAction "PUT";
  Route [Lit "teams"; Var "team_id"; Lit "vm"; Var "resource_id"] HdeleteVM "DELETE"
].

(** A segment a variable can match.  Segments hold no slash. *)
Definition var_segment (s : string) : bool :=
  negb (String.eqb s "") && negb (occurs_in "/" s).

Fixpoint match_path (template : list segment) (path : list string)
    : option (gmap string string) :=
  match template, path with
  | [], [] => Some ∅
  | Lit s :: template', p :: path' =>
      if String.eqb s p then match_path template' path' else None
  | Var x :: template', p :: path' =>
      if var_segment p then <[x := p]> <$> match_path template' path' else None
  | _, _ => None
  end.

Fixpoint route_match (rs : list route) (method : string) (path : list string)
    : option (handler * gmap string string) :=
  match rs with
  | [] => None
  | r :: rs' =>
      match match_path (route_path r) path with
      | Some vars =>
          if String.eqb (route_method r) method then Some (route_handler r, vars)
          else route_match rs' method path
      | None => route_match rs' method path
      end
  end.

(** [mux.Vars(r)[name]]: the empty string when the route binds no such
    variable. *)
Definition var (vars : gmap string string) (name : string) : string :=
  default "" (vars !! name).

(** The variables each handler reads. *)
Definition reads (h : handler) : list string :=
  match h with
  | Hhello | HregisterTeam => []
  | HgetTeam | HcreateVM => ["team_id"]
  | HresizeVM | HattachDisk => ["team_name"; "vm_name"]
  | HscaleVM | HdeleteVM => ["team_id"; "resource_id"]
  | HcreateBlockVolume => ["team_name"]
  | HhandleVMAction => ["team_name"; "vm_name"; "action"]
  end.

(** What a matched route runs. *)
Inductive call :=
| Hello
| Query (q : M value)
| Handle (h : M Empty_set).

Definition invoke (env : Env) (json_Unmarshal_any : string → error + value)
    (h : handler) (vars : gmap string string) (body : option json) : call :=
  match h with
  | Hhello => Hello
  | HregisterTeam => Handle (registerTeam env body)
  | HgetTeam => Query (getTeam env json_Unmarshal_any (var vars "team_id"))
  | HcreateVM => Handle (createVM env (var vars "team_id") body)
  | HresizeVM => Handle (resizeVM env (var vars "team_name") (var vars "vm_name") body)
  | HscaleVM => Handle (scaleVM env (var vars "team_id") (var vars "resource_id") body)
  | HattachDisk => Handle (attachDisk env (var vars "team_name") (var vars "vm_name") body)
  | HcreateBlockVolume => Handle (createBlockVolume env (var vars "team_name") body)
  | HhandleVMAction =>
      Handle (handleVMAction env (var vars "team_name") (var vars "vm_name")
                (var vars "action"))
  | HdeleteVM => Handle (deleteVM env (var vars "team_id") (var vars "resource_id"))
  end.

(** The router answers a path that is not clean with a redirect, whatever
    the method: a path is clean when none of its segments is [.] or [..],
    and none but the last is empty. *)
Fixpoint clean_path (path : list string) : bool :=
  match path with
  | [] => true
  | [s] => negb (String.eqb s ".") && negb (String.eqb s "..")
  | s :: rest =>
      negb (String.eqb s "") && negb (String.eqb s ".") && negb (String.eqb s "..")
      && clean_path rest
  end.

Inductive served :=
| Redirected
| NoRoute
| Served (c : call).

Definition ServeHTTP (env : Env) (json_Unmarshal_any : string → error + value)
    (method : string) (path : list string) (body : option json) : served :=
  if clean_path path then
    match route_match routes method path with
    | Some (h, vars) => Served (invoke env json_Unmarshal_any h vars body)
    | None => NoRoute
    end
  else Redirected.

(** A team, VM or action name as it stands in a clean path. *)
Definition plain (s : string) : bool :=
  var_segment s && negb (String.eqb s ".") && negb (String.eqb s "..").

(** ** Reading manifests and states *)

(** The command of [applyYAML]. *)
Definition apply_command (filename : string) : command :=
  Command "kubectl" ["apply"; "-f"; filename].

(** A member of [spec], and of [spec.forProvider], in a stored manifest. *)
Definition spec_member (instance : gmap string value) (k : key) : option value :=
  match instance !! "spec" with
  | Some (VMapII spec) => spec !! k
  | _ => None
  end.

Definition forProvider_member (instance : gmap string value) (k : key) : option value :=
  match spec_member instance (KString "forProvider") with
  | Some (VMapII forProvider) => forProvider !! k
  | _ => None
  end.

(** The status reports no transition: no [task_state], or one that is not
    a string, or the empty string. *)
Definition not_busy (statusData : gmap string value) : Prop :=
  ∀ taskState,
    statusData !! "OS-EXT-STS:task_state" = Some (VString taskState) → taskState = "".

(** The manifest [createBlockVolume] builds. *)
Definition volumeManifest (teamName : string) (data : CreateBlockVolume.data) : value :=
  VMapSI {[
    "apiVersion" := VString "blockstorage.openstack.crossplane.io/v1alpha1";
    "kind" := VString "VolumeV3";
    "metadata" := VMapSS {[
      "name" := CreateBlockVolume.Name data;
      "namespace" := teamName ]};
    "spec" := VMapSI {[
      "forProvider" := VMapSI {[
        "name" := VString (CreateBlockVolume.Name data);
        "size" := VInt (CreateBlockVolume.Size data);
        "description" := VString (CreateBlockVolume.Description data) ]};
      "providerConfigRef" := VMapSS {[ "name" := "provider-openstack-config" ]} ]}
  ]}.

(** The name [attachDisk] gives every attachment of a VM in one process. *)
Definition attachment_name (env : Env) (vmName : string) : string :=
  vmName ++ "-attach-" ++ substring 0 8 (format_x (Getpid env)).

(** ** Reading a decimal text

    The number a text of decimal digits denotes, with its sign: how
    [kubectl] reads the count it is handed.  No text is read as a number
    unless it has a digit and nothing but digits after the sign. *)
Definition digit_value (c : ascii) : option N :=
  let n := N_of_ascii c in
  if ((48 <=? n)%N && (n <=? 57)%N)%bool then Some (n - 48)%N else None.

(** The value of the digits, and the weight of the place before them. *)
Fixpoint read_digits (s : string) : option (N * N) :=
  match s with
  | EmptyString => Some (0, 1)%N
  | String c r =>
      d ← digit_value c;
      vw ← read_digits r;
      Some (d * vw.2 + vw.1, vw.2 * 10)%N
  end.

Definition decimal_N (s : string) : option N :=
  match s with
  | EmptyString => None
  | _ => fst <$> read_digits s
  end.

Definition decimal_value (s : string) : option Z :=
  match s with
  | String c r =>
      if Ascii.eqb c "-" then (λ n, - Z.of_N n) <$> decimal_N r
      else Z.of_N <$> decimal_N s
  | EmptyString => None
  end.

(** ** More sample environments *)
Module Scenario.

(** A YAML oracle that keeps the flavor of a stored manifest. *)
Definition marshal (v : value) : error + string :=
  match v with
  | VMapSI m =>
      match flavor_of m with
      | Some (VString f) => inr ("flavorId: " ++ f)
      | _ => Sample.marshal v
      end
  | _ => Sample.marshal v
  end.

Definition unmarshal (doc : string) : error + gmap string value :=
  if String.prefix "flavorId: " doc
  then inr (Sample.stored_manifest (substring 10 (String.length doc - 10) doc))
  else Sample.unmarshal doc.

(** No transition is under way: the status has no [task_state]. *)
Definition quiet_status : string := "{}".

Definition env : Env := {|
  TempDir := "/tmp";
  Getpid := 4242;
  filepath_Join := λ dir elem, dir ++ "/" ++ elem;
  yaml_Marshal := marshal;
  yaml_Unmarshal := unmarshal;
  json_Unmarshal := λ out,
    if String.eqb out quiet_status then inr ∅
    else inl (ErrLib "unexpected end of JSON input");
  WriteFile_fault := λ _ _, None;
  Stat_fault := λ _, None;
  ReadFile_fault := λ _, None;
  Run := λ c _,
    match cmd_args c with
    | ["-c"; line] =>
        if occurs_in "openstack server show" line
        then RunResult None quiet_status ""
        else RunResult None "" ""
    | _ => RunResult None "" ""
    end
|}.

(** The JSON oracle of [getTeam]. *)
Definition unmarshal_any (out : string) : error + value :=
  if String.eqb out "" then inl (ErrLib "unexpected end of JSON input")
  else inr (VString out).

End Scenario.

(** * Theorems *)

(** ** Decoding a request body *)

Section Decode.
Context {D : Type} (assign : D → string → json → option D).

Let step (acc : option D) (kv : string * json) : option D :=
  d ← acc; assign d kv.1 kv.2.

Lemma foldl_assign_None members : foldl step None members = None.
Proof. by induction members. Qed.

(** A property of the struct that every assignment of an allowed member
    keeps holds after [Decode]. *)
Lemma decode_invariant (P : D → Prop) (Q : string → Prop) zero members d :
  (∀ d k v d', Q k → P d → assign d k v = Some d' → P d') →
  Forall (λ kv, Q kv.1) members →
  P zero →
  decode assign zero (Some (JObj members)) = Some d →
  P d.
Proof.
  intros Hstep Hall. simpl. fold step. revert zero.
  induction Hall as [|[k v] members Hk _ IH]; intros zero Hzero; simpl.
  - by intros [= <-].
  - destruct (assign zero k v) as [d'|] eqn:Hd'.
    + apply IH. by eapply Hstep.
    + by rewrite foldl_assign_None.
Qed.


(** A member that leaves the struct as it is can be dropped. *)
Lemma decode_drop_member (P : D → Prop) (Q : string → Prop) zero before k v after :
  (∀ d k v d', Q k → P d → assign d k v = Some d' → P d') →
  (∀ d, P d → assign d k v = Some d) →
  Forall (λ kv, Q kv.1) before →
  P zero →
  decode assign zero (Some (JObj (before ++ (k, v) :: after)))
  = decode assign zero (Some (JObj (before ++ after))).
Proof.
  intros Hstep Hsame Hall Hzero. simpl. fold step.
  rewrite !foldl_app. simpl.
  destruct (foldl step (Some zero) before) as [d|] eqn:Hd; simpl; [|done].
  rewrite Hsame; [done|].
  by eapply (decode_invariant P Q zero before).
Qed.
End Decode.

(** An assignment to another field keeps what holds of this one: by cases
    on the field the member is matched to. *)
Ltac assignment_keeps assign :=
  let k := fresh "k" in
  intros ? k ? ? ? ?; unfold assign;
  destruct (field_of _ _ k) as [[]|]; try done;
  intros ?; simplify_option_eq; done.





Lemma CreateVM_absent_SecurityGroups members data :
  absent CreateVM.fields CreateVM.tag CreateVM.FSecurityGroups members →
  CreateVM.Decode (Some (JObj members)) = Some data →
  CreateVM.SecurityGroups data = [].
Proof.
  intros Habs (st & Hst & ->)%fmap_Some. revert Hst.
  apply (decode_invariant _ (λ st, CreateVM.SecurityGroups (CreateVM.decoded st) = [])
    (λ k, field_of CreateVM.fields CreateVM.tag k ≠ Some CreateVM.FSecurityGroups)); [|done..].
  assignment_keeps CreateVM.assign.
Qed.


(** A [size] of 0 where no other member gives a size decodes as no [size]
    member at all. *)
Lemma CreateBlockVolume_size_zero_absent before after :
  absent CreateBlockVolume.fields CreateBlockVolume.tag CreateBlockVolume.FSize before →
  CreateBlockVolume.Decode (Some (JObj (before ++ ("size", JNum (NInt 0)) :: after)))
  = CreateBlockVolume.Decode (Some (JObj (before ++ after))).
Proof.
  intros Habs.
  apply (decode_drop_member _ (λ d, CreateBlockVolume.Size d = 0)
    (λ k, field_of CreateBlockVolume.fields CreateBlockVolume.tag k
          ≠ Some CreateBlockVolume.FSize)); [| |done..].
  - assignment_keeps CreateBlockVolume.assign.
  - intros [n z s] Hz; simpl in *. by subst.
Qed.
(** ** The busy check of the action route *)

Section ActionRoute.
Context (env : Env) (teamName vmName action : string) (fs : gmap string string).

(** The status query is none of the action commands. *)
Lemma statusCmd_not_action c :
  action_command teamName vmName action = Some c → c ≠ statusCmd vmName.
Proof.
  unfold action_command, statusCmd, bash, script.
  repeat case_match; intros [= <-]; cbv; congruence.
Qed.

(** When the handler stops after the status query, no action ran. *)
Lemma only_status_query (w : world) c :
  trace w = [EvRun (statusCmd vmName)] →
  action_command teamName vmName action = Some c →
  EvRun c ∉ trace w.
Proof.
  intros -> Hc Hin. apply list_elem_of_singleton in Hin.
  injection Hin as Heq. by apply statusCmd_not_action in Hc.
Qed.
End ActionRoute.

(** C1: when the status query of the action route succeeds and reports a
    non-empty [OS-EXT-STS:task_state], the handler answers 409 Conflict, and
    the only process it has run is the status query: the command of the
    action is never executed. *)
Theorem handleVMAction_busy_conflict
    (env : Env) (teamName vmName action : string) (fs : gmap string string)
    (statusData : gmap string value) (taskState : string) :
  run_err (Run env (statusCmd vmName) fs) = None →
  json_Unmarshal env (run_stdout (Run env (statusCmd vmName) fs)) = inr statusData →
  statusData !! "OS-EXT-STS:task_state" = Some (VString taskState) →
  taskState ≠ "" →
  ∃ w',
    serve (handleVMAction env teamName vmName action) (start fs)
      = (Responded (http_Error ("VM is currently busy (task_state: " ++ taskState
                                  ++ "). Try again later.") StatusConflict), w')
    ∧ files w' = fs
    ∧ trace w' = [EvRun (statusCmd vmName)]
    ∧ ∀ c, action_command teamName vmName action = Some c → EvRun c ∉ trace w'.
Proof.
  intros Hrun Hjson Hstate Hne.
  eexists. split; [|split; [|split]].
  - unfold serve, handleVMAction, mbind, M_bind, cmd_Run, start; simpl.
    rewrite Hrun, Hjson. unfold task_state. rewrite Hstate.
    apply String.eqb_neq in Hne. rewrite Hne. reflexivity.
  - reflexivity.
  - reflexivity.
  - intros c. by apply only_status_query.
Qed.

Lemma handleVMAction_busy_conflict_witness :
  ∃ w',
    serve (handleVMAction Sample.env "teamA" "vm1" "start") (start ∅)
      = (Responded (http_Error ("VM is currently busy (task_state: " ++ "powering-on"
                                  ++ "). Try again later.") StatusConflict), w')
    ∧ files w' = ∅
    ∧ trace w' = [EvRun (statusCmd "vm1")]
    ∧ ∀ c, action_command "teamA" "vm1" "start" = Some c → EvRun c ∉ trace w'.
Proof.
  apply (handleVMAction_busy_conflict Sample.env "teamA" "vm1" "start" ∅
           {[ "OS-EXT-STS:task_state" := VString "powering-on" ]} "powering-on").
  - reflexivity.
  - reflexivity.
  - reflexivity.
  - discriminate.
Defined.

(** C6: when the status query cannot be run, or its output is not parsed,
    the handler answers 500 and stops there: the only process it has run is
    the status query, and the command of the action is never executed. *)
Theorem handleVMAction_status_failure
    (env : Env) (teamName vmName action : string) (fs : gmap string string) :
  (is_Some (run_err (Run env (statusCmd vmName) fs))
   ∨ ∃ err, json_Unmarshal env (run_stdout (Run env (statusCmd vmName) fs)) = inl err) →
  ∃ r w',
    serve (handleVMAction env teamName vmName action) (start fs) = (Responded r, w')
    ∧ status r = StatusInternalServerError
    ∧ files w' = fs
    ∧ trace w' = [EvRun (statusCmd vmName)]
    ∧ ∀ c, action_command teamName vmName action = Some c → EvRun c ∉ trace w'.
Proof.
  intros Hfail.
  unfold serve, handleVMAction, mbind, M_bind, cmd_Run, start; simpl.
  destruct (run_err (Run env (statusCmd vmName) fs)) as [err|] eqn:Hrun.
  - do 2 eexists. split; [reflexivity|]. repeat split.
    intros c. by apply only_status_query.
  - destruct Hfail as [[? [=]]|[err Hjson]]. rewrite Hjson.
    do 2 eexists. split; [reflexivity|]. repeat split.
    intros c. by apply only_status_query.
Qed.

Lemma handleVMAction_status_failure_witness :
  ∃ r w',
    serve (handleVMAction Sample.env_down "teamA" "vm1" "stop") (start ∅) = (Responded r, w')
    ∧ status r = StatusInternalServerError
    ∧ files w' = ∅
    ∧ trace w' = [EvRun (statusCmd "vm1")]
    ∧ ∀ c, action_command "teamA" "vm1" "stop" = Some c → EvRun c ∉ trace w'.
Proof.
  apply (handleVMAction_status_failure Sample.env_down "teamA" "vm1" "stop" ∅).
  left. eexists. reflexivity.
Defined.

(** ** createVM *)

Lemma decode_app {D : Type} (assign : D → string → json → option D) zero l1 l2 :
  decode assign zero (Some (JObj (l1 ++ l2)))
  = d ← decode assign zero (Some (JObj l1)); decode assign d (Some (JObj l2)).
Proof.
  simpl. rewrite foldl_app.
  destruct (foldl _ (Some zero) l1); simpl; [done|].
  apply foldl_assign_None.
Qed.

Lemma assign_elements_literals (array l : list string) :
  assign_elements array (JStr <$> l) = Some l.
Proof.
  revert array. induction l as [|x l IH]; intros array; [done|].
  simpl. by rewrite IH.
Qed.

(** An array of strings is what the slice shows afterwards, whatever the
    slice and its array held. *)
Lemma to_strings_literals (old : slice) (l : list string) :
  ∃ sl, to_strings old (JArr (JStr <$> l)) = Some sl ∧ elements sl = l.
Proof.
  destruct l as [|x l]; [by eexists|].
  unfold to_strings. rewrite fmap_cons.
  rewrite <- (fmap_cons JStr x l), assign_elements_literals. by eexists.
Qed.

(** Member names are matched as [encoding/json] matches them: a long s is
    an [s] and a Kelvin sign is a [k] of the tag. *)
Lemma field_of_folds_unicode :
  field_of ScaleVM.fields ScaleVM.tag ("replica" ++ Sample.long_s)
  = Some ScaleVM.FReplicas
  ∧ field_of CreateVM.fields CreateVM.tag ("networ" ++ Sample.kelvin ++ "Id")
    = Some CreateVM.FNetworkID
  ∧ field_of CreateVM.fields CreateVM.tag (Sample.long_s ++ "ecurityGroups")
    = Some CreateVM.FSecurityGroups
  ∧ field_of CreateBlockVolume.fields CreateBlockVolume.tag (Sample.long_s ++ "ize")
    = Some CreateBlockVolume.FSize
  ∧ field_of CreateVM.fields CreateVM.tag "NAME" = Some CreateVM.FName
  ∧ field_of CreateVM.fields CreateVM.tag ("name" ++ Sample.long_s) = None.
Proof. by vm_compute. Qed.

(** A member met again is assigned into the slice the first one left: a
    [null] element keeps the element that is there, and a shorter array
    cuts the slice without clearing its array. *)
Lemma CreateVM_Decode_member_again :
  CreateVM.SecurityGroups <$>
    CreateVM.Decode (Some (JObj [("securityGroups", JArr [JStr "a"]);
                                 ("securityGroups", JArr [JNull])]))
  = Some ["a"]
  ∧ CreateVM.SecurityGroups <$>
      CreateVM.Decode (Some (JObj [("securityGroups", JArr [JStr "a"; JStr "b"; JStr "c"]);
                                   ("securityGroups", JArr [JStr "x"]);
                                   ("securityGroups", JArr [JNull; JNull])]))
    = Some ["x"; "b"]
  ∧ CreateVM.SecurityGroups <$>
      CreateVM.Decode (Some (JObj [("securityGroups", JArr [JStr "a"]);
                                   ("securityGroups", JArr []);
                                   ("securityGroups", JArr [JNull])]))
    = Some [""].
Proof. by vm_compute. Qed.

(** The list of the last [securityGroups] member is the list [Decode]
    leaves in the struct. *)
Lemma CreateVM_supplied_SecurityGroups before after l data :
  absent CreateVM.fields CreateVM.tag CreateVM.FSecurityGroups after →
  CreateVM.Decode
    (Some (JObj (before ++ ("securityGroups", JArr (JStr <$> l)) :: after))) = Some data →
  CreateVM.SecurityGroups data = l.
Proof.
  intros Habs (st & Hd & ->)%fmap_Some.
  rewrite decode_app in Hd. apply bind_Some in Hd as (st1 & _ & Hd).
  change (?x :: after) with ([x] ++ after)%list in Hd.
  rewrite decode_app in Hd. apply bind_Some in Hd as (st2 & Hd2 & Hd).
  revert Hd.
  apply (decode_invariant _ (λ st, CreateVM.SecurityGroups (CreateVM.decoded st) = l)
    (λ k, field_of CreateVM.fields CreateVM.tag k ≠ Some CreateVM.FSecurityGroups));
    [|done|].
  - assignment_keeps CreateVM.assign.
  - simpl in Hd2. unfold CreateVM.assign in Hd2.
    change (field_of CreateVM.fields CreateVM.tag "securityGroups")
      with (Some CreateVM.FSecurityGroups) in Hd2.
    cbv beta iota zeta in Hd2.
    destruct (to_strings_literals
                (Slice (CreateVM.SecurityGroups (CreateVM.decoded st1))
                   (CreateVM.array_rest st1)) l) as (sl & Hsl & Hels).
    rewrite Hsl in Hd2. simpl in Hd2. by injection Hd2 as <-.
Qed.

Lemma securityGroups_of_instanceYAML teamID data :
  securityGroups_of (instanceYAML teamID data)
  = Some (VStrings (CreateVM.SecurityGroups data)).
Proof. reflexivity. Qed.

Lemma default_groups_spec data :
  CreateVM.SecurityGroups (default_groups data)
  = match CreateVM.SecurityGroups data with
    | [] => ["default"]
    | l => l
    end.
Proof. unfold default_groups. by destruct (CreateVM.SecurityGroups data) eqn:E. Qed.

Lemma default_groups_Name data :
  CreateVM.Name (default_groups data) = CreateVM.Name data.
Proof. unfold default_groups. by destruct (CreateVM.SecurityGroups data). Qed.

Lemma not_missing_required data :
  ¬ missing_required data →
  (CreateVM.Name data =? "")%string || (CreateVM.ImageID data =? "")%string
  || (CreateVM.FlavorID data =? "")%string || (CreateVM.NetworkID data =? "")%string
  = false.
Proof.
  unfold missing_required. intros Hvalid.
  repeat (apply orb_false_intro); apply String.eqb_neq; tauto.
Qed.

Lemma is_missing_required data :
  missing_required data →
  (CreateVM.Name data =? "")%string || (CreateVM.ImageID data =? "")%string
  || (CreateVM.FlavorID data =? "")%string || (CreateVM.NetworkID data =? "")%string
  = true.
Proof.
  unfold missing_required.
  intros [H|[H|[H|H]]]; rewrite H; simpl; by rewrite ?orb_true_r.
Qed.

(** C4: for every valid creation request, [spec.forProvider.securityGroups]
    of the manifest [createVM] builds and applies is the supplied list when
    that list is not empty, and [["default"]] when the list is empty or the
    member is omitted; the document written to the manifest file is that
    manifest, marshalled. *)
Theorem createVM_securityGroups
    (env : Env) (teamID : string) (body : option json) (data : CreateVM.data) :
  CreateVM.Decode body = Some data →
  ¬ missing_required data →
  let manifest := instanceYAML teamID (default_groups data) in
  securityGroups_of manifest
    = Some (VStrings (match CreateVM.SecurityGroups data with
                      | [] => ["default"]
                      | l => l
                      end))
  ∧ (∀ before after l,
       body = Some (JObj (before ++ ("securityGroups", JArr (JStr <$> l)) :: after)) →
       absent CreateVM.fields CreateVM.tag CreateVM.FSecurityGroups after →
       l ≠ [] →
       securityGroups_of manifest = Some (VStrings l))
  ∧ (∀ members,
       body = Some (JObj members) →
       absent CreateVM.fields CreateVM.tag CreateVM.FSecurityGroups members →
       securityGroups_of manifest = Some (VStrings ["default"]))
  ∧ (∀ fs doc,
       yaml_Marshal env manifest = inr doc →
       head (trace (serve (createVM env teamID body) (start fs)).2)
       = Some (EvWriteFile (manifest_path env teamID (CreateVM.Name data)) doc)).
Proof.
  intros Hdec Hvalid manifest. subst manifest.
  rewrite securityGroups_of_instanceYAML, default_groups_spec.
  split; [done|]. split; [|split].
  - intros before after l -> Habs Hl.
    rewrite (CreateVM_supplied_SecurityGroups _ _ _ _ Habs Hdec).
    by destruct l.
  - intros members -> Habs.
    by rewrite (CreateVM_absent_SecurityGroups _ _ Habs Hdec).
  - intros fs doc Hdoc.
    unfold serve, createVM. rewrite Hdec, (not_missing_required _ Hvalid).
    unfold mbind, M_bind, applyYAML. rewrite Hdoc, default_groups_Name.
    unfold mbind, M_bind, ioutil_WriteFile, cmd_Run, start; simpl.
    destruct (WriteFile_fault env _ _) as [[? [?|]]|]; simpl; try done.
    by destruct (run_err _).
Qed.

Lemma createVM_securityGroups_witness :
  securityGroups_of (instanceYAML "teamA"
    (default_groups (CreateVM.Data "vm1" "img1" "f1" "net1" [])))
  = Some (VStrings ["default"]).
Proof.
  apply (createVM_securityGroups Sample.env "teamA" Sample.vm1_body
           (CreateVM.Data "vm1" "img1" "f1" "net1" [])).
  - reflexivity.
  - unfold missing_required; simpl. intros [H|[H|[H|H]]]; discriminate H.
Defined.




(** ** resizeVM *)

Lemma set_flavor_nested FlavorID instance spec forProvider :
  instance !! "spec" = Some (VMapII spec) →
  spec !! KString "forProvider" = Some (VMapII forProvider) →
  set_flavor FlavorID instance
  = <["spec" := VMapII (<[KString "forProvider" :=
        VMapII (<[KString "flavorId" := VString FlavorID]> forProvider)]> spec)]> instance.
Proof. intros Hspec Hfp. unfold set_flavor. by rewrite Hspec, Hfp. Qed.

(** Without the nesting the manifest is left as it was read. *)
Lemma set_flavor_malformed FlavorID instance :
  ¬ expected_nesting instance → set_flavor FlavorID instance = instance.
Proof.
  intros Hno. unfold set_flavor.
  destruct (instance !! "spec") as [[]|] eqn:Hspec; try done.
  destruct (m !! KString "forProvider") as [[]|] eqn:Hfp; try done.
  destruct Hno. by do 2 eexists.
Qed.

(** Done again with the same flavor, the mutation changes nothing more. *)
Lemma set_flavor_twice FlavorID instance :
  set_flavor FlavorID (set_flavor FlavorID instance) = set_flavor FlavorID instance.
Proof.
  destruct (instance !! "spec") as [[| | | | | | | | | |spec]|] eqn:Hspec;
    try by (unfold set_flavor at 2; rewrite Hspec; unfold set_flavor; rewrite Hspec).
  destruct (spec !! KString "forProvider") as [[| | | | | | | | | |forProvider]|] eqn:Hfp;
    try by (unfold set_flavor at 2; rewrite Hspec, Hfp; unfold set_flavor; rewrite Hspec, Hfp).
  rewrite (set_flavor_nested _ _ _ _ Hspec Hfp).
  erewrite set_flavor_nested; [|apply lookup_insert_eq|apply lookup_insert_eq].
  by rewrite !insert_insert_eq.
Qed.

(** C7: on a stored manifest with the expected nesting, the mutation of
    [resizeVM] sets [spec.forProvider.flavorId], keeps the nesting, and done
    a second time with the same [flavorId] gives the manifest it gave the
    first time. *)
Theorem set_flavor_idempotent (FlavorID : string) (instance : gmap string value) :
  expected_nesting instance →
  set_flavor FlavorID (set_flavor FlavorID instance) = set_flavor FlavorID instance
  ∧ flavor_of (set_flavor FlavorID instance) = Some (VString FlavorID)
  ∧ expected_nesting (set_flavor FlavorID instance).
Proof.
  intros (spec & forProvider & Hspec & Hfp).
  split; [apply set_flavor_twice|].
  rewrite (set_flavor_nested _ _ _ _ Hspec Hfp). split.
  - unfold flavor_of. by rewrite !lookup_insert_eq.
  - do 2 eexists. split; apply lookup_insert_eq.
Qed.

Lemma set_flavor_idempotent_witness :
  set_flavor "f2" (set_flavor "f2" (Sample.stored_manifest "f1"))
    = set_flavor "f2" (Sample.stored_manifest "f1")
  ∧ flavor_of (set_flavor "f2" (Sample.stored_manifest "f1")) = Some (VString "f2")
  ∧ expected_nesting (set_flavor "f2" (Sample.stored_manifest "f1")).
Proof.
  apply (set_flavor_idempotent "f2" (Sample.stored_manifest "f1")).
  do 2 eexists. split; reflexivity.
Defined.

(** The mutation changes nothing but the flavor: two stored manifests that
    differ in their flavor only are the same after it. *)
Lemma set_flavor_stored (old new : string) :
  set_flavor new (Sample.stored_manifest old) = Sample.stored_manifest new.
Proof.
  reflexivity.
Qed.

Section Resize.
Context (env : Env) (teamName vmName : string) (body : option json).
Context (fs : gmap string string).

Let yamlPath := manifest_path env teamName vmName.

(** C3, as the code has it: a resize request whose body decodes with a
    non-empty [flavorId], for a reference whose manifest file does not
    exist ([Stat] says that there is no such file), is answered 404 after
    the one [Stat]: nothing is read, changed, written or run.  A request
    whose body does not decode, or has no [flavorId], is answered 400
    before the file is looked for, whether the file exists or not.  When
    [Stat] fails for another reason the file is not taken as missing: the
    handler goes on to read it and, with no file to read, answers 500. *)
Theorem resizeVM_not_found :
  (∀ data,
     ResizeVM.Decode body = Some data →
     ResizeVM.FlavorID data ≠ "" →
     fs !! yamlPath = None →
     Stat_fault env yamlPath = None →
     serve (resizeVM env teamName vmName body) (start fs)
     = (Responded (http_Error (yamlPath ++ " not found") StatusNotFound),
        World fs [EvStat yamlPath]))
  ∧ ((∀ data, ResizeVM.Decode body = Some data → ResizeVM.FlavorID data = "") →
     ∃ r,
       serve (resizeVM env teamName vmName body) (start fs) = (Responded r, start fs)
       ∧ status r = StatusBadRequest)
  ∧ (∀ data,
       ResizeVM.Decode body = Some data →
       ResizeVM.FlavorID data ≠ "" →
       fs !! yamlPath = None →
       is_Some (Stat_fault env yamlPath) →
       ∃ r,
         serve (resizeVM env teamName vmName body) (start fs)
         = (Responded r, World fs [EvStat yamlPath; EvReadFile yamlPath])
         ∧ status r = StatusInternalServerError).
Proof.
  unfold yamlPath. split; [|split].
  - intros data Hdec Hflavor Hmissing Hstat. unfold serve, resizeVM. rewrite Hdec.
    apply String.eqb_neq in Hflavor. rewrite Hflavor.
    unfold mbind, M_bind, os_Stat_IsNotExist, start; simpl.
    by rewrite !bool_decide_eq_true_2.
  - intros Hbad. unfold serve, resizeVM.
    destruct (ResizeVM.Decode body) as [data|]; [|by eexists].
    rewrite (Hbad data eq_refl). by eexists.
  - intros data Hdec Hflavor Hmissing [err Hstat]. unfold serve, resizeVM. rewrite Hdec.
    apply String.eqb_neq in Hflavor. rewrite Hflavor.
    unfold mbind, M_bind, os_Stat_IsNotExist, ioutil_ReadFile, start; simpl.
    rewrite (bool_decide_eq_false_2 (Stat_fault env _ = None)) by (rewrite Hstat; done).
    rewrite andb_false_r. simpl. rewrite Hmissing. by eexists.
Qed.

(** The path of [resizeVM] on which every step succeeds. *)
Lemma resizeVM_applies data content instance doc :
  ResizeVM.Decode body = Some data →
  ResizeVM.FlavorID data ≠ "" →
  fs !! yamlPath = Some content →
  ReadFile_fault env yamlPath = None →
  yaml_Unmarshal env content = inr instance →
  yaml_Marshal env (VMapSI (set_flavor (ResizeVM.FlavorID data) instance)) = inr doc →
  WriteFile_fault env yamlPath doc = None →
  run_err (Run env (Command "kubectl" ["apply"; "-f"; yamlPath])
             (<[yamlPath := doc]> fs)) = None →
  serve (resizeVM env teamName vmName body) (start fs)
  = (Responded (encode_message {[
       "message" := "Flavor for VM '" ++ vmName ++ "' updated successfully." ]}),
     World (<[yamlPath := doc]> fs)
       [EvStat yamlPath; EvReadFile yamlPath; EvWriteFile yamlPath doc;
        EvRun (Command "kubectl" ["apply"; "-f"; yamlPath])]).
Proof.
  unfold yamlPath. intros Hdec Hflavor Hfile Hread Hyaml Hdoc Hwrite Hrun.
  unfold serve, resizeVM. rewrite Hdec.
  apply String.eqb_neq in Hflavor. rewrite Hflavor.
  unfold mbind, M_bind, os_Stat_IsNotExist, ioutil_ReadFile, start; simpl.
  rewrite bool_decide_eq_false_2 by (rewrite Hfile; done).
  simpl. rewrite Hfile, Hread, Hyaml.
  unfold applyYAML. rewrite Hdoc.
  unfold mbind, M_bind, ioutil_WriteFile, cmd_Run; simpl.
  rewrite Hwrite; simpl. by rewrite Hrun.
Qed.

(** C2 fails on the code: a stored manifest without the expected nesting
    is marshalled again as it was read and applied, and the answer is the
    200 that says the flavor was updated. *)
Theorem resizeVM_malformed_manifest data content instance doc :
  ResizeVM.Decode body = Some data →
  ResizeVM.FlavorID data ≠ "" →
  fs !! yamlPath = Some content →
  ReadFile_fault env yamlPath = None →
  yaml_Unmarshal env content = inr instance →
  ¬ expected_nesting instance →
  yaml_Marshal env (VMapSI instance) = inr doc →
  WriteFile_fault env yamlPath doc = None →
  run_err (Run env (Command "kubectl" ["apply"; "-f"; yamlPath])
             (<[yamlPath := doc]> fs)) = None →
  serve (resizeVM env teamName vmName body) (start fs)
  = (Responded (encode_message {[
       "message" := "Flavor for VM '" ++ vmName ++ "' updated successfully." ]}),
     World (<[yamlPath := doc]> fs)
       [EvStat yamlPath; EvReadFile yamlPath; EvWriteFile yamlPath doc;
        EvRun (Command "kubectl" ["apply"; "-f"; yamlPath])]).
Proof.
  intros Hdec Hflavor Hfile Hread Hyaml Hno Hdoc Hwrite Hrun.
  apply (resizeVM_applies data content instance doc); try done.
  by rewrite (set_flavor_malformed _ _ Hno).
Qed.

End Resize.

(** The same resize request handled twice: when the YAML library reads back
    the document it wrote, the second run writes that document again,
    leaves the files as the first run left them, and answers the same. *)
Lemma resizeVM_twice env teamName vmName body fs data content instance doc :
  let yamlPath := manifest_path env teamName vmName in
  ResizeVM.Decode body = Some data →
  ResizeVM.FlavorID data ≠ "" →
  fs !! yamlPath = Some content →
  ReadFile_fault env yamlPath = None →
  yaml_Unmarshal env content = inr instance →
  yaml_Marshal env (VMapSI (set_flavor (ResizeVM.FlavorID data) instance)) = inr doc →
  yaml_Unmarshal env doc = inr (set_flavor (ResizeVM.FlavorID data) instance) →
  WriteFile_fault env yamlPath doc = None →
  run_err (Run env (Command "kubectl" ["apply"; "-f"; yamlPath])
             (<[yamlPath := doc]> fs)) = None →
  let once := serve (resizeVM env teamName vmName body) (start fs) in
  let twice := serve (resizeVM env teamName vmName body) (start (files once.2)) in
  twice.1 = once.1 ∧ files twice.2 = files once.2 ∧ trace twice.2 = trace once.2.
Proof.
  intros yamlPath Hdec Hflavor Hfile Hread Hyaml Hdoc Hback Hwrite Hrun. cbv zeta.
  rewrite (resizeVM_applies env teamName vmName body fs data content instance doc)
    by done.
  simpl.
  rewrite (resizeVM_applies env teamName vmName body _ data doc
             (set_flavor (ResizeVM.FlavorID data) instance) doc); try done.
  - simpl. by rewrite insert_insert_eq.
  - apply lookup_insert_eq.
  - by rewrite set_flavor_twice.
  - by rewrite insert_insert_eq.
Qed.

Lemma resizeVM_not_found_witness :
  serve (resizeVM Sample.env "teamA" "vm1" Sample.f2_body) (start ∅)
  = (Responded (http_Error (manifest_path Sample.env "teamA" "vm1" ++ " not found")
                  StatusNotFound),
     World ∅ [EvStat (manifest_path Sample.env "teamA" "vm1")])
  ∧ ∃ r,
      serve (resizeVM Sample.env_short_names "teamA" Sample.long_name Sample.f2_body)
        (start ∅)
      = (Responded r,
         World ∅ [EvStat (manifest_path Sample.env_short_names "teamA" Sample.long_name);
                  EvReadFile (manifest_path Sample.env_short_names "teamA" Sample.long_name)])
      ∧ status r = StatusInternalServerError.
Proof.
  split.
  - apply (proj1 (resizeVM_not_found Sample.env "teamA" "vm1" Sample.f2_body ∅))
      with (data := ResizeVM.Data "f2").
    + reflexivity.
    + discriminate.
    + reflexivity.
    + reflexivity.
  - apply (proj2 (proj2 (resizeVM_not_found Sample.env_short_names "teamA" Sample.long_name
                          Sample.f2_body ∅)))
      with (data := ResizeVM.Data "f2").
    + reflexivity.
    + discriminate.
    + reflexivity.
    + eexists. vm_compute. reflexivity.
Defined.

(** C3 as stated fails: with no manifest file and a body without
    [flavorId], the answer is 400, not 404. *)
Lemma resizeVM_no_file_no_flavor :
  (∅ : gmap string string) !! manifest_path Sample.env "teamA" "vm1" = None
  ∧ serve (resizeVM Sample.env "teamA" "vm1" (Some (JObj []))) (start ∅)
    = (Responded (http_Error "Missing 'flavorId' in request" StatusBadRequest), start ∅)
  ∧ StatusBadRequest ≠ StatusNotFound.
Proof. repeat split. discriminate. Qed.

Lemma resizeVM_malformed_manifest_witness :
  let yamlPath := manifest_path Sample.env "teamA" "vm1" in
  let fs : gmap string string := {[ yamlPath := Sample.bare_document ]} in
  serve (resizeVM Sample.env "teamA" "vm1" Sample.f2_body) (start fs)
  = (Responded (encode_message {[
       "message" := "Flavor for VM '" ++ "vm1" ++ "' updated successfully." ]}),
     World (<[yamlPath := Sample.bare_document]> fs)
       [EvStat yamlPath; EvReadFile yamlPath; EvWriteFile yamlPath Sample.bare_document;
        EvRun (Command "kubectl" ["apply"; "-f"; yamlPath])]).
Proof.
  apply (resizeVM_malformed_manifest Sample.env "teamA" "vm1" Sample.f2_body _
           (ResizeVM.Data "f2") Sample.bare_document Sample.bare_manifest
           Sample.bare_document).
  - reflexivity.
  - discriminate.
  - reflexivity.
  - reflexivity.
  - reflexivity.
  - intros (spec & forProvider & Hspec & _). discriminate Hspec.
  - reflexivity.
  - reflexivity.
  - reflexivity.
Defined.

(** ** scaleVM *)

Lemma serve_world (h : M Empty_set) (w : world) : (serve h w).2 = (h w).2.
Proof. unfold serve. by destruct (h w) as [[[]|r|] w']. Qed.

(** A scale request that decodes with a count runs the scaling command with
    that count, and nothing else. *)
Lemma scaleVM_runs env teamID resourceID body replicas fs :
  ScaleVM.Decode body = Some (ScaleVM.Data (Some replicas)) →
  ∃ r,
    serve (scaleVM env teamID resourceID body) (start fs)
    = (Responded r, World fs [EvRun (scale_command teamID resourceID replicas)])
    ∧ (run_err (Run env (scale_command teamID resourceID replicas) fs) = None →
       r = encode_message {[
             "message" := "Scaled VM '" ++ resourceID ++ "' to "
               ++ format_d replicas ++ " replicas." ]}).
Proof.
  intros Hdec. unfold serve, scaleVM. rewrite Hdec; simpl.
  unfold mbind, M_bind, cmd_Run, start; simpl.
  destruct (run_err _) as [err|]; eexists; (split; [reflexivity|]); done.
Qed.



(** ** The transient manifest files *)

Section Cleanup.
Context (env : Env) (fs : gmap string string).

Lemma defer_Remove {A} (path : string) (rest : M A) (w : world) (t : list event) :
  trace (rest w).2 = t →
  (∀ p d, EvWriteFile p d ∈ t → p = path) →
  cleaned_up path (defer (os_Remove path) rest w).2.
Proof.
  intros Ht Hwrites. unfold cleaned_up, defer, os_Remove.
  destruct (rest w) as [r w']; simpl in *. subst t.
  split; [apply lookup_delete_eq|]. split; [apply last_snoc|].
  intros p d Hin. apply elem_of_app in Hin as [Hin|Hin]; [by eapply Hwrites|].
  by apply list_elem_of_singleton in Hin.
Qed.

(** What [applyYAML] does, whichever of its three steps fails. *)
Lemma applyYAML_trace (yamlContent : value) (filename : string) (w : world) :
  ∃ t, trace (applyYAML env yamlContent filename w).2 = (trace w ++ t)%list
       ∧ ∀ p d, EvWriteFile p d ∈ t → p = filename.
Proof.
  unfold applyYAML. destruct (yaml_Marshal env yamlContent) as [err|data]; simpl.
  { exists []. rewrite app_nil_r. split; [done|]. by intros p d ?%elem_of_nil. }
  unfold mbind, M_bind, ioutil_WriteFile, cmd_Run; simpl.
  destruct (WriteFile_fault env filename data) as [[err [partial|]]|]; simpl.
  1,2: exists [EvWriteFile filename data]; split; [done|];
       intros p d Hin%list_elem_of_singleton; congruence.
  exists [EvWriteFile filename data;
          EvRun (Command "kubectl" ["apply"; "-f"; filename])].
  split; [destruct (run_err _); simpl; by rewrite <- app_assoc|].
  intros p d Hin. apply elem_of_cons in Hin as [Hin|Hin]; [congruence|].
  by apply list_elem_of_singleton in Hin.
Qed.

(** A handler that defers the removal, applies, and answers. *)
Lemma applyYAML_cleanup {A} yamlContent filename (k : option error → M A) :
  (∀ err w, (k err w).2 = w) →
  cleaned_up filename
    (defer (os_Remove filename) (err ← applyYAML env yamlContent filename; k err)
       (start fs)).2.
Proof.
  intros Hk.
  destruct (applyYAML_trace yamlContent filename (start fs)) as (t & Ht & Hwrites).
  simpl in Ht. eapply defer_Remove; [|exact Hwrites].
  rewrite <- Ht. unfold mbind, M_bind.
  destruct (applyYAML _ _ _) as [[err|r|] w']; [|done..].
  by rewrite Hk.
Qed.
End Cleanup.

Section Transient.
Context (env : Env) (fs : gmap string string).

Lemma registerTeam_cleanup body data :
  RegisterTeam.Decode body = Some data →
  RegisterTeam.Name data ≠ "" →
  cleaned_up
    (filepath_Join env (TempDir env) ("namespace-" ++ RegisterTeam.Name data ++ ".yaml"))
    (serve (registerTeam env body) (start fs)).2.
Proof.
  intros Hdec Hname%String.eqb_neq.
  rewrite serve_world. unfold registerTeam. rewrite Hdec; simpl. rewrite Hname.
  apply applyYAML_cleanup. by intros [].
Qed.

Lemma attachDisk_cleanup teamName vmName body data :
  AttachDisk.Decode body = Some data →
  AttachDisk.VolumeID data ≠ "" →
  AttachDisk.InstanceID data ≠ "" →
  (8 ≤ String.length (format_x (Getpid env)))%nat →
  cleaned_up
    (filepath_Join env (TempDir env)
       ((vmName ++ "-attach-" ++ substring 0 8 (format_x (Getpid env))) ++ ".yaml"))
    (serve (attachDisk env teamName vmName body) (start fs)).2.
Proof.
  intros Hdec Hvol%String.eqb_neq Hinst%String.eqb_neq Hpid.
  rewrite serve_world. unfold attachDisk. rewrite Hdec, Hvol, Hinst; simpl.
  apply Nat.ltb_ge in Hpid. rewrite Hpid.
  apply applyYAML_cleanup. by intros [].
Qed.

Lemma createBlockVolume_cleanup teamName body data :
  CreateBlockVolume.Decode body = Some data →
  CreateBlockVolume.Name data ≠ "" →
  CreateBlockVolume.Size data ≠ 0 →
  cleaned_up
    (filepath_Join env (TempDir env) (CreateBlockVolume.Name data ++ "-block.yaml"))
    (serve (createBlockVolume env teamName body) (start fs)).2.
Proof.
  intros Hdec Hname%String.eqb_neq Hsize%Z.eqb_neq.
  rewrite serve_world. unfold createBlockVolume. rewrite Hdec; simpl.
  rewrite Hname, Hsize; simpl.
  destruct (yaml_Marshal env _) as [err|fileContent] eqn:Hdoc.
  { eapply (defer_Remove _ _ _ []); [done|]. by intros p d ?%elem_of_nil. }
  unfold mbind, M_bind, ioutil_WriteFile, cmd_Run.
  destruct (WriteFile_fault env _ fileContent) as [[err [partial|]]|].
  - eapply defer_Remove; [done|].
    intros p d Hin%list_elem_of_singleton. congruence.
  - eapply defer_Remove; [done|].
    intros p d Hin%list_elem_of_singleton. congruence.
  - eapply (defer_Remove _ _ _
             [EvWriteFile _ fileContent; EvRun (Command "kubectl" ["apply"; "-f"; _])]).
    + simpl. by destruct (run_err _).
    + intros p d Hin. apply elem_of_cons in Hin as [Hin|Hin]; [congruence|].
      by apply list_elem_of_singleton in Hin.
Qed.

(** [attachDisk] on a process whose pid has fewer than 8 hexadecimal
    digits panics at [nameSuffix[:8]], before any manifest is built. *)
Lemma attachDisk_short_pid teamName vmName body data :
  AttachDisk.Decode body = Some data →
  AttachDisk.VolumeID data ≠ "" →
  AttachDisk.InstanceID data ≠ "" →
  (String.length (format_x (Getpid env)) < 8)%nat →
  serve (attachDisk env teamName vmName body) (start fs) = (Panicked, start fs).
Proof.
  intros Hdec Hvol%String.eqb_neq Hinst%String.eqb_neq Hpid%Nat.ltb_lt.
  unfold serve, attachDisk. by rewrite Hdec, Hvol, Hinst, Hpid.
Qed.
End Transient.

(** C9: for every team-registration, disk-attachment and block-volume
    request that gets to build its manifest, whatever the marshalling, the
    write and [kubectl] do, the transient manifest file is the only file
    written, removing it is the last effect of the handler, and it is not
    there once the handler has returned. *)
Theorem transient_manifest_removed (env : Env) (fs : gmap string string) :
  (∀ body data,
     RegisterTeam.Decode body = Some data →
     RegisterTeam.Name data ≠ "" →
     cleaned_up
       (filepath_Join env (TempDir env) ("namespace-" ++ RegisterTeam.Name data ++ ".yaml"))
       (serve (registerTeam env body) (start fs)).2)
  ∧ (∀ teamName vmName body data,
       AttachDisk.Decode body = Some data →
       AttachDisk.VolumeID data ≠ "" →
       AttachDisk.InstanceID data ≠ "" →
       (8 ≤ String.length (format_x (Getpid env)))%nat →
       cleaned_up
         (filepath_Join env (TempDir env)
            ((vmName ++ "-attach-" ++ substring 0 8 (format_x (Getpid env))) ++ ".yaml"))
         (serve (attachDisk env teamName vmName body) (start fs)).2)
  ∧ (∀ teamName body data,
       CreateBlockVolume.Decode body = Some data →
       CreateBlockVolume.Name data ≠ "" →
       CreateBlockVolume.Size data ≠ 0 →
       cleaned_up
         (filepath_Join env (TempDir env) (CreateBlockVolume.Name data ++ "-block.yaml"))
         (serve (createBlockVolume env teamName body) (start fs)).2).
Proof.
  split; [|split].
  - apply registerTeam_cleanup.
  - apply attachDisk_cleanup.
  - apply createBlockVolume_cleanup.
Qed.

Lemma transient_manifest_removed_witness :
  cleaned_up "/tmp/namespace-teamA.yaml"
    (serve (registerTeam Sample.env (Some (JObj [("name", JStr "teamA")]))) (start ∅)).2
  ∧ cleaned_up "/tmp/vm1-attach-1234abcd.yaml"
      (serve (attachDisk Sample.env "teamA" "vm1"
                (Some (JObj [("volumeId", JStr "vol1"); ("instanceId", JStr "i-1")])))
         (start ∅)).2
  ∧ cleaned_up "/tmp/data-block.yaml"
      (serve (createBlockVolume Sample.env "teamA"
                (Some (JObj [("name", JStr "data"); ("size", JNum (NInt 10))])))
         (start ∅)).2.
Proof.
  split; [|split].
  - apply (transient_manifest_removed Sample.env ∅)
      with (data := RegisterTeam.Data "teamA"); [reflexivity|discriminate].
  - apply (transient_manifest_removed Sample.env ∅)
      with (data := AttachDisk.Data "vol1" "i-1");
      [reflexivity|discriminate|discriminate|vm_compute; lia].
  - apply (transient_manifest_removed Sample.env ∅)
      with (data := CreateBlockVolume.Data "data" 10 "");
      [reflexivity|discriminate|discriminate].
Defined.

(** ** createBlockVolume *)

(** C10: a block-volume request whose [size] is 0 is answered 400 with the
    missing-fields text and nothing is written or run; a body with
    [size: 0] is handled as the same body without the member; whereas a
    scale request with 0 replicas runs its command. *)
Theorem createBlockVolume_size_zero
    (env : Env) (teamName : string) (fs : gmap string string) :
  (∀ body data,
     CreateBlockVolume.Decode body = Some data →
     CreateBlockVolume.Size data = 0 →
     serve (createBlockVolume env teamName body) (start fs)
     = (Responded (http_Error "Missing required fields (name or size)" StatusBadRequest),
        start fs))
  ∧ (∀ before after,
       absent CreateBlockVolume.fields CreateBlockVolume.tag CreateBlockVolume.FSize before →
       createBlockVolume env teamName
         (Some (JObj (before ++ ("size", JNum (NInt 0)) :: after)))
       = createBlockVolume env teamName (Some (JObj (before ++ after))))
  ∧ (∀ resourceID body,
       ScaleVM.Decode body = Some (ScaleVM.Data (Some 0)) →
       trace (serve (scaleVM env teamName resourceID body) (start fs)).2
       = [EvRun (scale_command teamName resourceID 0)]).
Proof.
  split; [|split].
  - intros body data Hdec Hsize. unfold serve, createBlockVolume.
    rewrite Hdec, Hsize; simpl. by rewrite orb_true_r.
  - intros before after Habs. unfold createBlockVolume.
    by rewrite (CreateBlockVolume_size_zero_absent _ _ Habs).
  - intros resourceID body Hdec.
    by destruct (scaleVM_runs env teamName resourceID body 0 fs Hdec) as (r & -> & _).
Qed.

Lemma createBlockVolume_size_zero_witness :
  serve (createBlockVolume Sample.env "teamA"
           (Some (JObj [("name", JStr "data"); ("size", JNum (NInt 0))]))) (start ∅)
  = (Responded (http_Error "Missing required fields (name or size)" StatusBadRequest),
     start ∅).
Proof.
  apply (createBlockVolume_size_zero Sample.env "teamA" ∅)
    with (data := CreateBlockVolume.Data "data" 0 ""); reflexivity.
Defined.

(** * More of the code *)

(** ** applyYAML *)

Section ApplyYAML.
Context (env : Env) (yamlContent : value) (filename : string) (fs : gmap string string).

(** The three ways [applyYAML] ends. *)
Lemma applyYAML_cases :
  (∃ err, yaml_Marshal env yamlContent = inl err
     ∧ (applyYAML env yamlContent filename (start fs)) = (Value (Some (ErrWrap "failed to marshal YAML" err)), start fs))
  ∨ (∃ data err partial,
       yaml_Marshal env yamlContent = inr data
       ∧ WriteFile_fault env filename data = Some (err, partial)
       ∧ (applyYAML env yamlContent filename (start fs)).1 = Value (Some (ErrWrap "failed to write YAML to file" err))
       ∧ trace (applyYAML env yamlContent filename (start fs)).2 = [EvWriteFile filename data]
       ∧ files (applyYAML env yamlContent filename (start fs)).2 = match partial with
                          | Some left_over => <[filename := left_over]> fs
                          | None => fs
                          end)
  ∨ (∃ data,
       yaml_Marshal env yamlContent = inr data
       ∧ WriteFile_fault env filename data = None
       ∧ (applyYAML env yamlContent filename (start fs)).1 = Value (match run_err (Run env (apply_command filename)
                                            (<[filename := data]> fs)) with
                           | Some err => Some (ErrWrap "failed to execute kubectl apply" err)
                           | None => None
                           end)
       ∧ (applyYAML env yamlContent filename (start fs)).2 = World (<[filename := data]> fs)
                      [EvWriteFile filename data; EvRun (apply_command filename)]).
Proof.
  unfold applyYAML.
  destruct (yaml_Marshal env yamlContent) as [err|data]; [left; by eexists|right].
  unfold mbind, M_bind, ioutil_WriteFile, cmd_Run, start; simpl.
  destruct (WriteFile_fault env filename data) as [[err [partial|]]|] eqn:Hwrite; simpl.
  - left. exists data, err, (Some partial). by rewrite Hwrite.
  - left. exists data, err, None. by rewrite Hwrite.
  - right. exists data. rewrite Hwrite. unfold apply_command.
    by destruct (run_err _).
Qed.

(** X1: [kubectl apply] is run on the file only after the marshalled
    manifest has been written to it without error: whenever [applyYAML]
    runs a command, the command is [kubectl apply -f filename], the write
    came first, and the file holds the marshalled manifest. *)
Theorem applyYAML_applies_what_it_wrote (c : command) :
  let w' := (applyYAML env yamlContent filename (start fs)).2 in
  EvRun c ∈ trace w' →
  c = apply_command filename
  ∧ ∃ data,
      yaml_Marshal env yamlContent = inr data
      ∧ WriteFile_fault env filename data = None
      ∧ trace w' = [EvWriteFile filename data; EvRun c]
      ∧ files w' !! filename = Some data.
Proof.
  intros w' Hin. subst w'.
  destruct applyYAML_cases as [(err & _ & Hw)|[(data & err & partial & _ & _ & _ & Ht & _)
                              |(data & Hdoc & Hwrite & _ & Hw)]].
  - rewrite Hw in Hin. by apply elem_of_nil in Hin.
  - rewrite Ht in Hin. by apply list_elem_of_singleton in Hin.
  - rewrite Hw in *. simpl in Hin.
    apply elem_of_cons in Hin as [Hin|Hin]; [done|].
    apply list_elem_of_singleton in Hin. injection Hin as ->.
    split; [done|]. exists data. simpl. by rewrite lookup_insert_eq.
Qed.

(** X2: [applyYAML] returns nil exactly when the marshalling, the write and
    [kubectl apply] all succeeded; a failed marshalling has no effect at
    all; and no file but [filename] is ever changed. *)
Theorem applyYAML_nil_iff :
  let result := applyYAML env yamlContent filename (start fs) in
  (result.1 = Value None ↔
     ∃ data,
       yaml_Marshal env yamlContent = inr data
       ∧ WriteFile_fault env filename data = None
       ∧ run_err (Run env (apply_command filename) (<[filename := data]> fs)) = None)
  ∧ ((∃ err, yaml_Marshal env yamlContent = inl err) → result.2 = start fs)
  ∧ (∀ p, p ≠ filename → files result.2 !! p = fs !! p).
Proof.
  intros result. subst result.
  destruct applyYAML_cases as [(err & Hdoc & Hw)|[(data & err & partial & Hdoc & Hwrite & Hr & Ht & Hf)
                              |(data & Hdoc & Hwrite & Hr & Hw)]].
  - rewrite Hw. split; [|done]. split; [done|]. intros (data & Hdata & _). congruence.
  - split; [|split].
    + rewrite Hr. split; [done|]. intros (data' & Hdata & Hw' & _). congruence.
    + intros [e He]. congruence.
    + intros p Hp. rewrite Hf. destruct partial; [by rewrite lookup_insert_ne|done].
  - split; [|split].
    + rewrite Hr. split.
      * intros Hnil. exists data. repeat split; try done.
        by destruct (run_err _).
      * intros (data' & Hdata & _ & Hrun).
        assert (data' = data) as -> by congruence. by rewrite Hrun.
    + intros [e He]. congruence.
    + intros p Hp. rewrite Hw. simpl. by rewrite lookup_insert_ne.
Qed.
End ApplyYAML.

Lemma applyYAML_applies_what_it_wrote_witness :
  apply_command "/tmp/ns.yaml" = apply_command "/tmp/ns.yaml"
  ∧ ∃ data,
      yaml_Marshal Sample.env (VMapSI Sample.bare_manifest) = inr data
      ∧ WriteFile_fault Sample.env "/tmp/ns.yaml" data = None
      ∧ trace (applyYAML Sample.env (VMapSI Sample.bare_manifest) "/tmp/ns.yaml" (start ∅)).2
        = [EvWriteFile "/tmp/ns.yaml" data; EvRun (apply_command "/tmp/ns.yaml")]
      ∧ files (applyYAML Sample.env (VMapSI Sample.bare_manifest) "/tmp/ns.yaml" (start ∅)).2
          !! "/tmp/ns.yaml" = Some data.
Proof.
  apply (applyYAML_applies_what_it_wrote Sample.env (VMapSI Sample.bare_manifest)
           "/tmp/ns.yaml" ∅ (apply_command "/tmp/ns.yaml")).
  apply list_elem_of_further, list_elem_of_here.
Defined.

(** ** createVM *)

Lemma append_cons (x : ascii) (a b : string) : String x a ++ b = String x (a ++ b).
Proof. reflexivity. Qed.

Lemma append_assoc (a b c : string) : (a ++ b) ++ c = a ++ b ++ c.
Proof. induction a as [|x a IH]; [done|]. by rewrite !append_cons, IH. Qed.

Lemma length_append (a b : string) :
  String.length (a ++ b) = (String.length a + String.length b)%nat.
Proof. induction a as [|x a IH]; [done|]. rewrite append_cons. simpl. by rewrite IH. Qed.

Section CreateVM.
Context (env : Env) (teamID : string) (body : option json) (fs : gmap string string).

(** A valid request: [createVM] is [applyYAML] on the built manifest, and
    an answer on its outcome. *)
Lemma createVM_valid data :
  CreateVM.Decode body = Some data →
  ¬ missing_required data →
  ∃ err,
    (applyYAML env (instanceYAML teamID (default_groups data))
       (manifest_path env teamID (CreateVM.Name data)) (start fs)).1 = Value err
    ∧ serve (createVM env teamID body) (start fs)
      = (Responded
           match err with
           | Some err => http_ErrorOf "Failed to provision VM: %v" err ""
                           StatusInternalServerError
           | None => encode_message {[
               "message" := "VM '" ++ CreateVM.Name data
                 ++ "' provisioned successfully in namespace '" ++ teamID ++ "'." ]}
           end,
         (applyYAML env (instanceYAML teamID (default_groups data))
            (manifest_path env teamID (CreateVM.Name data)) (start fs)).2).
Proof.
  intros Hdec Hvalid. unfold serve, createVM.
  rewrite Hdec, (not_missing_required _ Hvalid), default_groups_Name.
  unfold mbind, M_bind.
  destruct (applyYAML_cases env (instanceYAML teamID (default_groups data))
              (manifest_path env teamID (CreateVM.Name data)) fs)
    as [(err & _ & Hw)|[(doc & err & partial & _ & _ & Hr & _)|(doc & _ & _ & Hr & _)]].
  - rewrite Hw. by eexists.
  - destruct (applyYAML _ _ _ _) as [r w']; simpl in *; subst r. by eexists.
  - destruct (applyYAML _ _ _ _) as [r w']; simpl in *; subst r.
    eexists. split; [done|]. by destruct (run_err _).
Qed.

(** A request that is not valid is answered 400. *)
Lemma createVM_invalid :
  (∀ data, CreateVM.Decode body = Some data → missing_required data) →
  ∃ r, serve (createVM env teamID body) (start fs) = (Responded r, start fs)
       ∧ status r = StatusBadRequest.
Proof.
  intros Hbad. unfold serve, createVM.
  destruct (CreateVM.Decode body) as [data|]; [|by eexists].
  rewrite (is_missing_required _ (Hbad data eq_refl)). by eexists.
Qed.

Lemma missing_required_dec data : missing_required data ∨ ¬ missing_required data.
Proof.
  unfold missing_required.
  destruct (decide (CreateVM.Name data = "")); [tauto|].
  destruct (decide (CreateVM.ImageID data = "")); [tauto|].
  destruct (decide (CreateVM.FlavorID data = "")); [tauto|].
  destruct (decide (CreateVM.NetworkID data = "")); tauto.
Qed.

(** X3: what a 200 of [createVM] guarantees: the body decoded to a valid
    request, the manifest built from it was marshalled and written to the
    manifest file of (team, name), [kubectl apply] ran on it without error,
    and nothing else was done. *)
Theorem createVM_ok_means :
  status_of (serve (createVM env teamID body) (start fs)).1 = Some StatusOK →
  ∃ data doc,
    let yamlPath := manifest_path env teamID (CreateVM.Name data) in
    CreateVM.Decode body = Some data
    ∧ ¬ missing_required data
    ∧ yaml_Marshal env (instanceYAML teamID (default_groups data)) = inr doc
    ∧ run_err (Run env (apply_command yamlPath) (<[yamlPath := doc]> fs)) = None
    ∧ (serve (createVM env teamID body) (start fs)).2
      = World (<[yamlPath := doc]> fs)
          [EvWriteFile yamlPath doc; EvRun (apply_command yamlPath)].
Proof.
  intros Hok.
  destruct (CreateVM.Decode body) as [data|] eqn:Hdec.
  2: { destruct createVM_invalid as (r & Hr & Hst); [intros ? Hd; congruence|].
       rewrite Hr in Hok. simpl in Hok. by rewrite Hst in Hok. }
  destruct (missing_required_dec data) as [Hmiss|Hvalid].
  { destruct createVM_invalid as (r & Hr & Hst); [intros ? Hd; congruence|].
    rewrite Hr in Hok. simpl in Hok. by rewrite Hst in Hok. }
  destruct (createVM_valid data Hdec Hvalid) as (err & Herr & Hserve).
  rewrite Hserve in Hok. rewrite Hserve. simpl in Hok.
  destruct err as [err|]; [done|].
  destruct (applyYAML_cases env (instanceYAML teamID (default_groups data))
              (manifest_path env teamID (CreateVM.Name data)) fs)
    as [(e & _ & Hw)|[(doc & e & partial & _ & _ & Hr & _)|(doc & Hdoc & _ & Hr & Hw)]].
  - rewrite Hw in Herr. done.
  - rewrite Hr in Herr. done.
  - exists data, doc. cbv zeta. rewrite Hr in Herr. rewrite Hw.
    repeat split; try done. by destruct (run_err _).
Qed.
End CreateVM.

Lemma createVM_ok_means_witness :
  ∃ data doc,
    CreateVM.Decode Sample.vm1_body = Some data
    ∧ ¬ missing_required data
    ∧ yaml_Marshal Sample.env (instanceYAML "teamA" (default_groups data)) = inr doc
    ∧ run_err (Run Sample.env
                 (apply_command (manifest_path Sample.env "teamA" (CreateVM.Name data)))
                 (<[manifest_path Sample.env "teamA" (CreateVM.Name data) := doc]> ∅)) = None
    ∧ (serve (createVM Sample.env "teamA" Sample.vm1_body) (start ∅)).2
      = World (<[manifest_path Sample.env "teamA" (CreateVM.Name data) := doc]> ∅)
          [EvWriteFile (manifest_path Sample.env "teamA" (CreateVM.Name data)) doc;
           EvRun (apply_command (manifest_path Sample.env "teamA" (CreateVM.Name data)))].
Proof.
  apply (createVM_ok_means Sample.env "teamA" Sample.vm1_body ∅). reflexivity.
Defined.

(** With a file at the path, a valid resize request is not answered 404. *)
Lemma resizeVM_found env teamName vmName body fs data content :
  ResizeVM.Decode body = Some data →
  ResizeVM.FlavorID data ≠ "" →
  fs !! manifest_path env teamName vmName = Some content →
  status_of (serve (resizeVM env teamName vmName body) (start fs)).1 ≠ Some StatusNotFound.
Proof.
  intros Hdec Hflavor%String.eqb_neq Hfile. unfold serve, resizeVM.
  rewrite Hdec, Hflavor.
  unfold mbind, M_bind, os_Stat_IsNotExist, ioutil_ReadFile, start; simpl.
  rewrite bool_decide_eq_false_2 by (rewrite Hfile; done). simpl. rewrite Hfile.
  destruct (ReadFile_fault env _); [done|].
  destruct (yaml_Unmarshal env content) as [err|instance]; [done|].
  destruct (applyYAML_cases env (VMapSI (set_flavor (ResizeVM.FlavorID data) instance))
              (manifest_path env teamName vmName) fs)
    as [(e & Hdoc & _)|[(doc & e & partial & Hdoc & Hwrite & _)|(doc & Hdoc & Hwrite & _)]];
    unfold applyYAML; rewrite Hdoc; [done|..];
    unfold mbind, M_bind, ioutil_WriteFile, cmd_Run; simpl; rewrite Hwrite.
  - by destruct partial.
  - simpl. by destruct (run_err _).
Qed.

(** X4: when [kubectl apply] fails, [createVM] answers 500 but leaves the
    manifest it wrote in place: a later valid resize of the same (team,
    name) finds it, and is not answered 404. *)
Theorem createVM_failed_apply_leaves_manifest
    (env : Env) (teamID : string) (body : option json) (fs : gmap string string)
    (data : CreateVM.data) (doc : string) (err : error) :
  let yamlPath := manifest_path env teamID (CreateVM.Name data) in
  CreateVM.Decode body = Some data →
  ¬ missing_required data →
  yaml_Marshal env (instanceYAML teamID (default_groups data)) = inr doc →
  WriteFile_fault env yamlPath doc = None →
  run_err (Run env (apply_command yamlPath) (<[yamlPath := doc]> fs)) = Some err →
  let after := serve (createVM env teamID body) (start fs) in
  status_of after.1 = Some StatusInternalServerError
  ∧ files after.2 !! yamlPath = Some doc
  ∧ ∀ body' data',
      ResizeVM.Decode body' = Some data' →
      ResizeVM.FlavorID data' ≠ "" →
      status_of (serve (resizeVM env teamID (CreateVM.Name data) body')
                   (start (files after.2))).1 ≠ Some StatusNotFound.
Proof.
  intros yamlPath Hdec Hvalid Hdoc Hwrite Hrun after. subst after.
  destruct (createVM_valid env teamID body fs data Hdec Hvalid) as (e & He & ->).
  destruct (applyYAML_cases env (instanceYAML teamID (default_groups data)) yamlPath fs)
    as [(e' & Hdoc' & _)|[(doc' & e' & partial & Hdoc' & Hwrite' & _)
                          |(doc' & Hdoc' & _ & Hr & Hw)]]; try congruence.
  assert (doc' = doc) as -> by congruence.
  fold yamlPath in He. rewrite Hr, Hrun in He. injection He as <-.
  fold yamlPath. rewrite Hw. simpl.
  assert (Hfile : <[yamlPath := doc]> fs !! yamlPath = Some doc) by apply lookup_insert_eq.
  split; [done|]. split; [done|].
  intros body' data' Hdec' Hflavor. by eapply resizeVM_found.
Qed.

Lemma createVM_failed_apply_leaves_manifest_witness :
  let after := serve (createVM Sample.env_down "teamA" Sample.vm1_body) (start ∅) in
  status_of after.1 = Some StatusInternalServerError
  ∧ files after.2 !! manifest_path Sample.env_down "teamA" "vm1" = Some "kind: InstanceV2"
  ∧ ∀ body' data',
      ResizeVM.Decode body' = Some data' →
      ResizeVM.FlavorID data' ≠ "" →
      status_of (serve (resizeVM Sample.env_down "teamA" "vm1" body')
                   (start (files after.2))).1 ≠ Some StatusNotFound.
Proof.
  apply (createVM_failed_apply_leaves_manifest Sample.env_down "teamA" Sample.vm1_body ∅
           (CreateVM.Data "vm1" "img1" "f1" "net1" []) "kind: InstanceV2"
           (ErrLib "exit status 1")).
  - reflexivity.
  - unfold missing_required; simpl. intros [H|[H|[H|H]]]; discriminate H.
  - reflexivity.
  - reflexivity.
  - reflexivity.
Defined.

(** X5: the manifest file is not keyed one-to-one by (team, name): the
    team [t-s] with the name [n], and the team [t] with the name [s-n], are
    two references with one file.  A manifest stored for the first is what
    a resize of the second finds. *)
Theorem manifest_path_collision (env : Env) (t s n : string) :
  (t ++ "-" ++ s, n) ≠ (t, s ++ "-" ++ n)
  ∧ manifest_path env (t ++ "-" ++ s) n = manifest_path env t (s ++ "-" ++ n)
  ∧ ∀ fs content body data,
      fs !! manifest_path env (t ++ "-" ++ s) n = Some content →
      ResizeVM.Decode body = Some data →
      ResizeVM.FlavorID data ≠ "" →
      status_of (serve (resizeVM env t (s ++ "-" ++ n) body) (start fs)).1
      ≠ Some StatusNotFound.
Proof.
  assert (Hpath : manifest_path env (t ++ "-" ++ s) n = manifest_path env t (s ++ "-" ++ n)).
  { unfold manifest_path. f_equal. by rewrite !append_assoc. }
  split; [|split; [done|]].
  - intros [= Heq _]. apply (f_equal String.length) in Heq.
    rewrite !length_append in Heq. simpl in Heq. lia.
  - intros fs content body data Hfile Hdec Hflavor.
    rewrite Hpath in Hfile. by eapply resizeVM_found.
Qed.

Lemma manifest_path_collision_witness :
  status_of (serve (resizeVM Sample.env "prod" "db-vm1" Sample.f2_body)
               (start {[ manifest_path Sample.env "prod-db" "vm1" := Sample.bare_document ]})).1
  ≠ Some StatusNotFound.
Proof.
  apply (manifest_path_collision Sample.env "prod" "db" "vm1")
    with (content := Sample.bare_document) (data := ResizeVM.Data "f2").
  - reflexivity.
  - reflexivity.
  - discriminate.
Defined.

(** ** resizeVM *)

(** X6: the same resize request handled twice in a row: when every step
    succeeds and the YAML library reads back the document it wrote, the
    second run writes that document again, leaves the files as the first run
    left them, and gives the same answer after the same effects. *)
Theorem resizeVM_handled_twice
    (env : Env) (teamName vmName : string) (body : option json) (fs : gmap string string)
    (data : ResizeVM.data) (content : string) (instance : gmap string value)
    (doc : string) :
  let yamlPath := manifest_path env teamName vmName in
  ResizeVM.Decode body = Some data →
  ResizeVM.FlavorID data ≠ "" →
  fs !! yamlPath = Some content →
  ReadFile_fault env yamlPath = None →
  yaml_Unmarshal env content = inr instance →
  yaml_Marshal env (VMapSI (set_flavor (ResizeVM.FlavorID data) instance)) = inr doc →
  yaml_Unmarshal env doc = inr (set_flavor (ResizeVM.FlavorID data) instance) →
  WriteFile_fault env yamlPath doc = None →
  run_err (Run env (apply_command yamlPath) (<[yamlPath := doc]> fs)) = None →
  let once := serve (resizeVM env teamName vmName body) (start fs) in
  let twice := serve (resizeVM env teamName vmName body) (start (files once.2)) in
  twice.1 = once.1 ∧ files twice.2 = files once.2 ∧ trace twice.2 = trace once.2.
Proof.
  intros yamlPath Hdec Hflavor Hfile Hread Hyaml Hdoc Hback Hwrite Hrun. cbv zeta.
  rewrite (resizeVM_applies env teamName vmName body fs data content instance doc)
    by done.
  simpl.
  rewrite (resizeVM_applies env teamName vmName body _ data doc
             (set_flavor (ResizeVM.FlavorID data) instance) doc); try done.
  - simpl. by rewrite insert_insert_eq.
  - apply lookup_insert_eq.
  - by rewrite set_flavor_twice.
  - unfold yamlPath in *. by rewrite insert_insert_eq.
Qed.

Lemma resizeVM_handled_twice_witness :
  let yamlPath := manifest_path Scenario.env "teamA" "vm1" in
  let fs : gmap string string := {[ yamlPath := "flavorId: f1" ]} in
  let once := serve (resizeVM Scenario.env "teamA" "vm1" Sample.f2_body) (start fs) in
  let twice := serve (resizeVM Scenario.env "teamA" "vm1" Sample.f2_body)
                 (start (files once.2)) in
  twice.1 = once.1 ∧ files twice.2 = files once.2 ∧ trace twice.2 = trace once.2.
Proof.
  apply (resizeVM_handled_twice Scenario.env "teamA" "vm1" Sample.f2_body _
           (ResizeVM.Data "f2") "flavorId: f1" (Sample.stored_manifest "f1")
           "flavorId: f2").
  - reflexivity.
  - discriminate.
  - reflexivity.
  - reflexivity.
  - reflexivity.
  - reflexivity.
  - reflexivity.
  - reflexivity.
  - reflexivity.
Defined.

(** X7: the mutation of [resizeVM] changes [spec.forProvider.flavorId] and
    nothing else: every other member of the manifest, of its [spec] and of
    its [forProvider] is as it was. *)
Theorem set_flavor_frame (FlavorID : string) (instance : gmap string value) :
  (∀ k, k ≠ "spec" → set_flavor FlavorID instance !! k = instance !! k)
  ∧ (∀ k, k ≠ KString "forProvider" →
          spec_member (set_flavor FlavorID instance) k = spec_member instance k)
  ∧ (∀ k, k ≠ KString "flavorId" →
          forProvider_member (set_flavor FlavorID instance) k
          = forProvider_member instance k).
Proof.
  destruct (instance !! "spec") as [[| | | | | | | | | |spec]|] eqn:Hspec;
    try by (unfold set_flavor; rewrite Hspec).
  destruct (spec !! KString "forProvider") as [[| | | | | | | | | |forProvider]|] eqn:Hfp;
    try by (unfold set_flavor; rewrite Hspec, Hfp).
  rewrite (set_flavor_nested _ _ _ _ Hspec Hfp).
  split; [|split].
  - intros k Hk. by rewrite lookup_insert_ne.
  - intros k Hk. unfold spec_member. rewrite lookup_insert_eq, Hspec.
    by rewrite lookup_insert_ne.
  - intros k Hk. unfold forProvider_member, spec_member.
    rewrite lookup_insert_eq, Hspec, lookup_insert_eq, Hfp.
    by rewrite lookup_insert_ne.
Qed.

Lemma set_flavor_frame_witness :
  forProvider_member (set_flavor "f2" (Sample.stored_manifest "f1")) (KString "name")
  = forProvider_member (Sample.stored_manifest "f1") (KString "name").
Proof.
  apply (set_flavor_frame "f2" (Sample.stored_manifest "f1")). discriminate.
Defined.

Section ResizeMore.
Context (env : Env) (teamName vmName : string) (body : option json).
Context (fs : gmap string string).

(** X8: a stored manifest that cannot be read, or that the YAML library
    does not parse, is answered 500 after the [Stat] and the read: nothing
    is written or run, and the file is as it was. *)
Theorem resizeVM_unreadable data content :
  let yamlPath := manifest_path env teamName vmName in
  ResizeVM.Decode body = Some data →
  ResizeVM.FlavorID data ≠ "" →
  fs !! yamlPath = Some content →
  (is_Some (ReadFile_fault env yamlPath)
   ∨ ∃ err, yaml_Unmarshal env content = inl err) →
  ∃ r,
    serve (resizeVM env teamName vmName body) (start fs)
    = (Responded r, World fs [EvStat yamlPath; EvReadFile yamlPath])
    ∧ status r = StatusInternalServerError.
Proof.
  intros yamlPath Hdec Hflavor%String.eqb_neq Hfile Hbad. subst yamlPath.
  unfold serve, resizeVM. rewrite Hdec, Hflavor.
  unfold mbind, M_bind, os_Stat_IsNotExist, ioutil_ReadFile, start; simpl.
  rewrite bool_decide_eq_false_2 by (rewrite Hfile; done). simpl. rewrite Hfile.
  destruct (ReadFile_fault env _) as [err|]; [by eexists|].
  destruct Hbad as [[? [=]]|[err ->]]. by eexists.
Qed.

(** X9: [resizeVM] never removes a file: a file that was there is there
    afterwards, whatever failed; and no file but the manifest of the
    reference is changed. *)
Theorem resizeVM_keeps_files :
  let yamlPath := manifest_path env teamName vmName in
  let w' := (serve (resizeVM env teamName vmName body) (start fs)).2 in
  (∀ p, is_Some (fs !! p) → is_Some (files w' !! p))
  ∧ (∀ p, p ≠ yamlPath → files w' !! p = fs !! p)
  ∧ (∀ p, EvRemove p ∉ trace w').
Proof.
  cbv zeta. rewrite serve_world. unfold resizeVM.
  assert (Hkeep : ∀ content p,
            is_Some (fs !! p) →
            is_Some (<[manifest_path env teamName vmName := content]> fs !! p)).
  { intros content p Hp.
    destruct (decide (manifest_path env teamName vmName = p)) as [->|Hne].
    - rewrite lookup_insert_eq. by eexists.
    - by rewrite lookup_insert_ne. }
  assert (Hother : ∀ content p,
            p ≠ manifest_path env teamName vmName →
            <[manifest_path env teamName vmName := content]> fs !! p = fs !! p).
  { intros content p Hp. by rewrite lookup_insert_ne. }
  destruct (ResizeVM.Decode body) as [data|];
    [|repeat split; simpl; [done..|intros ?; apply not_elem_of_nil]].
  destruct (_ =? _)%string;
    [repeat split; simpl; [done..|intros ?; apply not_elem_of_nil]|].
  unfold mbind, M_bind, os_Stat_IsNotExist, ioutil_ReadFile, start; simpl.
  destruct (bool_decide _ && bool_decide _); simpl.
  { repeat split; try done. intros p Hin. by apply list_elem_of_singleton in Hin. }
  assert (Hno2 : ∀ p, EvRemove p ∉ [EvStat (manifest_path env teamName vmName);
                                    EvReadFile (manifest_path env teamName vmName)]).
  { intros p Hin. apply elem_of_cons in Hin as [Hin|Hin]; [done|].
    by apply list_elem_of_singleton in Hin. }
  destruct (fs !! manifest_path env teamName vmName) as [content|] eqn:Hcontent;
    [|by repeat split].
  destruct (ReadFile_fault env _); [by repeat split|].
  destruct (yaml_Unmarshal env content) as [err|instance]; [by repeat split|].
  unfold applyYAML.
  destruct (yaml_Marshal env _) as [err|doc]; [by repeat split|].
  unfold mbind, M_bind, ioutil_WriteFile, cmd_Run; simpl.
  assert (Hno3 : ∀ p, EvRemove p ∉ [EvStat (manifest_path env teamName vmName);
                                    EvReadFile (manifest_path env teamName vmName);
                                    EvWriteFile (manifest_path env teamName vmName) doc]).
  { intros p Hin. apply elem_of_cons in Hin as [Hin|Hin]; [done|].
    apply elem_of_cons in Hin as [Hin|Hin]; [done|].
    by apply list_elem_of_singleton in Hin. }
  destruct (WriteFile_fault env _ doc) as [[err [partial|]]|]; simpl.
  - repeat split; [by apply Hkeep|by apply Hother|done].
  - by repeat split.
  - assert (Hno4 : ∀ p, EvRemove p ∉
                     [EvStat (manifest_path env teamName vmName);
                      EvReadFile (manifest_path env teamName vmName);
                      EvWriteFile (manifest_path env teamName vmName) doc;
                      EvRun (Command "kubectl"
                               ["apply"; "-f"; manifest_path env teamName vmName])]).
    { intros p Hin. apply elem_of_cons in Hin as [Hin|Hin]; [done|].
      apply elem_of_cons in Hin as [Hin|Hin]; [done|].
      apply elem_of_cons in Hin as [Hin|Hin]; [done|].
      by apply list_elem_of_singleton in Hin. }
    destruct (run_err _); simpl; (repeat split; [by apply Hkeep|by apply Hother|done]).
Qed.

(** X10: what a 200 of [resizeVM] guarantees: the stored manifest was read
    and parsed, what the mutation made of it was marshalled and written
    over it, and [kubectl apply] ran on the file without error, with these
    effects and no other.  What was written has the new flavor when the
    stored manifest had the expected nesting; when it had not, it is the
    stored manifest unchanged, and the answer is 200 all the same. *)
Theorem resizeVM_ok_means :
  let yamlPath := manifest_path env teamName vmName in
  status_of (serve (resizeVM env teamName vmName body) (start fs)).1 = Some StatusOK →
  ∃ data content instance doc,
    let written := set_flavor (ResizeVM.FlavorID data) instance in
    ResizeVM.Decode body = Some data
    ∧ ResizeVM.FlavorID data ≠ ""
    ∧ fs !! yamlPath = Some content
    ∧ yaml_Unmarshal env content = inr instance
    ∧ yaml_Marshal env (VMapSI written) = inr doc
    ∧ run_err (Run env (apply_command yamlPath) (<[yamlPath := doc]> fs)) = None
    ∧ (serve (resizeVM env teamName vmName body) (start fs)).2
      = World (<[yamlPath := doc]> fs)
          [EvStat yamlPath; EvReadFile yamlPath; EvWriteFile yamlPath doc;
           EvRun (apply_command yamlPath)]
    ∧ (expected_nesting instance →
       flavor_of written = Some (VString (ResizeVM.FlavorID data)))
    ∧ (¬ expected_nesting instance → written = instance).
Proof.
  cbv zeta. unfold serve, resizeVM.
  destruct (ResizeVM.Decode body) as [data|]; [|done].
  destruct (_ =? _)%string eqn:Hflavor; [done|]. apply String.eqb_neq in Hflavor.
  unfold mbind, M_bind, os_Stat_IsNotExist, ioutil_ReadFile, start; simpl.
  destruct (bool_decide _ && bool_decide _); [done|]. simpl.
  destruct (fs !! manifest_path env teamName vmName) as [content|] eqn:Hcontent; [|done].
  destruct (ReadFile_fault env _); [done|].
  destruct (yaml_Unmarshal env content) as [err|instance] eqn:Hyaml; [done|].
  unfold applyYAML.
  destruct (yaml_Marshal env _) as [err|doc] eqn:Hdoc; [done|].
  unfold mbind, M_bind, ioutil_WriteFile, cmd_Run; simpl.
  destruct (WriteFile_fault env _ doc) as [[err [partial|]]|]; simpl; [done..|].
  destruct (run_err _) eqn:Hrun; [done|]. intros _.
  exists data, content, instance, doc. repeat split; try done.
  - intros (spec & forProvider & Hspec & Hfp).
    rewrite (set_flavor_nested _ _ _ _ Hspec Hfp).
    unfold flavor_of. by rewrite !lookup_insert_eq.
  - apply set_flavor_malformed.
Qed.
End ResizeMore.

Lemma resizeVM_unreadable_witness :
  ∃ r,
    serve (resizeVM Sample.env "teamA" "vm1" Sample.f2_body)
      (start {[ manifest_path Sample.env "teamA" "vm1" := "kind: [" ]})
    = (Responded r,
       World {[ manifest_path Sample.env "teamA" "vm1" := "kind: [" ]}
         [EvStat (manifest_path Sample.env "teamA" "vm1");
          EvReadFile (manifest_path Sample.env "teamA" "vm1")])
    ∧ status r = StatusInternalServerError.
Proof.
  apply (resizeVM_unreadable Sample.env "teamA" "vm1" Sample.f2_body _
           (ResizeVM.Data "f2") "kind: [").
  - reflexivity.
  - discriminate.
  - reflexivity.
  - right. eexists. reflexivity.
Defined.

Lemma resizeVM_ok_means_witness :
  let yamlPath := manifest_path Scenario.env "teamA" "vm1" in
  let fs : gmap string string := {[ yamlPath := "flavorId: f1" ]} in
  ∃ data content instance doc,
    let written := set_flavor (ResizeVM.FlavorID data) instance in
    ResizeVM.Decode Sample.f2_body = Some data
    ∧ ResizeVM.FlavorID data ≠ ""
    ∧ fs !! yamlPath = Some content
    ∧ yaml_Unmarshal Scenario.env content = inr instance
    ∧ yaml_Marshal Scenario.env (VMapSI written) = inr doc
    ∧ run_err (Run Scenario.env (apply_command yamlPath) (<[yamlPath := doc]> fs)) = None
    ∧ (serve (resizeVM Scenario.env "teamA" "vm1" Sample.f2_body) (start fs)).2
      = World (<[yamlPath := doc]> fs)
          [EvStat yamlPath; EvReadFile yamlPath; EvWriteFile yamlPath doc;
           EvRun (apply_command yamlPath)]
    ∧ (expected_nesting instance →
       flavor_of written = Some (VString (ResizeVM.FlavorID data)))
    ∧ (¬ expected_nesting instance → written = instance).
Proof.
  apply (resizeVM_ok_means Scenario.env "teamA" "vm1" Sample.f2_body
           {[ manifest_path Scenario.env "teamA" "vm1" := "flavorId: f1" ]}).
  reflexivity.
Defined.

Lemma resizeVM_keeps_files_witness :
  is_Some (files (serve (resizeVM Sample.env "teamA" "vm1" Sample.f2_body)
                    (start {[ manifest_path Sample.env "teamA" "vm1" := "kind: [";
                              "/etc/hosts" := "localhost" ]})).2 !! "/etc/hosts").
Proof.
  apply (resizeVM_keeps_files Sample.env "teamA" "vm1" Sample.f2_body
           {[ manifest_path Sample.env "teamA" "vm1" := "kind: [";
              "/etc/hosts" := "localhost" ]}).
  eexists. reflexivity.
Defined.

Lemma applyYAML_nil_iff_witness :
  (applyYAML Sample.env (VMapSI Sample.bare_manifest) "/tmp/ns.yaml" (start ∅)).1
  = Value None.
Proof.
  apply (applyYAML_nil_iff Sample.env (VMapSI Sample.bare_manifest) "/tmp/ns.yaml" ∅).
  exists "kind: InstanceV2". repeat split.
Defined.

(** ** scaleVM *)

(** A member that cannot be assigned makes [Decode] fail, wherever it is. *)
Lemma decode_member_fails {D : Type} (assign : D → string → json → option D)
    zero members k v :
  (k, v) ∈ members →
  (∀ d, assign d k v = None) →
  decode assign zero (Some (JObj members)) = None.
Proof.
  intros Hin Hfail. simpl. revert zero.
  induction members as [|[k' v'] members IH]; intros zero; [by apply elem_of_nil in Hin|].
  simpl. apply elem_of_cons in Hin as [[= <- <-]|Hin].
  - rewrite Hfail. apply foldl_assign_None.
  - destruct (assign zero k' v') as [d|]; [by apply IH|apply foldl_assign_None].
Qed.

Lemma digit_value_char (d : N) :
  (d < 10)%N → digit_value (pretty_N_char d) = Some d.
Proof.
  intros Hd. destruct d as [|p]; [done|].
  do 4 (try destruct p as [p|p|]); try lia; done.
Qed.

(** The digits [pretty] puts before a text are read back as the number. *)
Lemma read_digits_pretty (x : N) (s : string) (v w : N) :
  read_digits s = Some (v, w) →
  ∃ w', read_digits (pretty_N_go x s) = Some (x * w + v, w')%N.
Proof.
  revert s v w. induction (N.lt_wf_0 x) as [x _ IH]; intros s v w Hs.
  destruct (decide (x = 0)%N) as [->|Hx].
  { rewrite pretty_N_go_0, Hs. by exists w. }
  rewrite pretty_N_go_step by lia.
  destruct (IH (x `div` 10)%N) with
    (s := String (pretty_N_char (x `mod` 10)) s)
    (v := ((x `mod` 10) * w + v)%N) (w := (w * 10)%N) as [w' Hw'].
  - apply N.div_lt; lia.
  - simpl. rewrite digit_value_char by (apply N.mod_lt; lia).
    simpl. by rewrite Hs.
  - exists w'. rewrite Hw'. do 2 f_equal.
    pose proof (N.div_mod x 10). lia.
Qed.

Lemma decimal_N_pretty (p : positive) :
  decimal_N (pretty_N_go (N.pos p) "") = Some (N.pos p).
Proof.
  destruct (read_digits_pretty (N.pos p) "" 0 1 eq_refl) as [w' Hw'].
  unfold decimal_N. destruct (pretty_N_go (N.pos p) "") as [|c r] eqn:Hs.
  - simpl in Hw'. injection Hw' as Hv _. lia.
  - rewrite Hw'. simpl. f_equal. lia.
Qed.

(** The text [%d] prints is read back as the number printed. *)
Lemma decimal_value_format_d (z : Z) : decimal_value (format_d z) = Some z.
Proof.
  unfold format_d. destruct z as [|p|p].
  - done.
  - change (pretty (Z.pos p)) with (pretty_N_go (N.pos p) "").
    pose proof (decimal_N_pretty p) as Hp.
    unfold decimal_value. destruct (pretty_N_go (N.pos p) "") as [|c r] eqn:Hs; [done|].
    destruct (Ascii.eqb_spec c "-") as [->|_].
    + by destruct (pretty_N_go_ne_dash (N.pos p) "" r).
    + by rewrite Hp.
  - change (pretty (Z.neg p)) with (String "-" (pretty_N_go (N.pos p) "")).
    unfold decimal_value.
    change (Ascii.eqb "-" "-") with true. cbv iota.
    by rewrite decimal_N_pretty.
Qed.

(** X11: [scaleVM] checks no range: for any count that fits an [int],
    negative ones too, the one command run is [kubectl scale] of the
    deployment in the namespace of the team, with [--replicas=] and a
    decimal text that reads as that very count. *)
Theorem scaleVM_any_count
    (env : Env) (teamID resourceID : string) (replicas : Z) (fs : gmap string string) :
  fits_int replicas = true →
  ∃ r text,
    serve (scaleVM env teamID resourceID (Some (JObj [("replicas", JNum (NInt replicas))])))
      (start fs)
    = (Responded r,
       World fs [EvRun (Command "kubectl"
                          ["scale"; "deployment/" ++ resourceID; "--replicas=" ++ text;
                           "-n"; teamID])])
    ∧ decimal_value text = Some replicas.
Proof.
  intros Hfits.
  destruct (scaleVM_runs env teamID resourceID
              (Some (JObj [("replicas", JNum (NInt replicas))])) replicas fs)
    as (r & Hr & _).
  { unfold ScaleVM.Decode; simpl. unfold ScaleVM.assign.
    change (field_of ScaleVM.fields ScaleVM.tag "replicas") with (Some ScaleVM.FReplicas).
    simpl. by rewrite Hfits. }
  exists r, (format_d replicas). split; [exact Hr|apply decimal_value_format_d].
Qed.

Lemma scaleVM_any_count_witness :
  ∃ r text,
    serve (scaleVM Sample.env "teamA" "web" (Some (JObj [("replicas", JNum (NInt (-3)))])))
      (start ∅)
    = (Responded r,
       World ∅ [EvRun (Command "kubectl"
                         ["scale"; "deployment/" ++ "web"; "--replicas=" ++ text;
                          "-n"; "teamA"])])
    ∧ decimal_value text = Some (-3).
Proof.
  apply (scaleVM_any_count Sample.env "teamA" "web" (-3) ∅). reflexivity.
Defined.

(** X12: a [replicas] member that is neither [null] nor an integer literal
    that fits an [int] makes the request a 400 with no effect, wherever it
    stands in the body; and a body that ends with [replicas: null] is a 400
    with no effect too, whatever count came before. *)
Theorem scaleVM_bad_replicas
    (env : Env) (teamID resourceID : string) (fs : gmap string string) :
  (∀ members k v,
     (k, v) ∈ members →
     field_of ScaleVM.fields ScaleVM.tag k = Some ScaleVM.FReplicas →
     to_int_ptr v = None →
     serve (scaleVM env teamID resourceID (Some (JObj members))) (start fs)
     = (Responded (http_ErrorOf "Error decoding request: %v" ErrDecode "" StatusBadRequest),
        start fs))
  ∧ (∀ members k,
       field_of ScaleVM.fields ScaleVM.tag k = Some ScaleVM.FReplicas →
       ∃ r,
         serve (scaleVM env teamID resourceID (Some (JObj (members ++ [(k, JNull)]))))
           (start fs)
         = (Responded r, start fs)
         ∧ status r = StatusBadRequest).
Proof.
  split.
  - intros members k v Hin Hk Hv. unfold serve, scaleVM, ScaleVM.Decode.
    rewrite (decode_member_fails _ _ _ k v Hin); [done|].
    intros d. unfold ScaleVM.assign. by rewrite Hk, Hv.
  - intros members k Hk. unfold serve, scaleVM, ScaleVM.Decode.
    rewrite decode_app.
    destruct (decode ScaleVM.assign ScaleVM.zero (Some (JObj members))) as [d|];
      simpl; [|by eexists].
    unfold ScaleVM.assign. rewrite Hk. simpl. by eexists.
Qed.

Lemma scaleVM_bad_replicas_witness :
  serve (scaleVM Sample.env "teamA" "web"
           (Some (JObj [("replicas", JNum (NReal "1.5")); ("replicas", JNum (NInt 2))])))
    (start ∅)
  = (Responded (http_ErrorOf "Error decoding request: %v" ErrDecode "" StatusBadRequest),
     start ∅).
Proof.
  apply (scaleVM_bad_replicas Sample.env "teamA" "web" ∅)
    with (k := "replicas") (v := JNum (NReal "1.5")).
  - apply list_elem_of_here.
  - reflexivity.
  - reflexivity.
Defined.

(** ** attachDisk *)

(** X13: in a process whose pid has fewer than 8 hexadecimal digits,
    [attachDisk] never applies anything: an invalid request is answered
    400, a valid one panics at [nameSuffix[:8]], and either way nothing is
    written or run. *)
Theorem attachDisk_short_pid_no_effect
    (env : Env) (teamName vmName : string) (body : option json) (fs : gmap string string) :
  (String.length (format_x (Getpid env)) < 8)%nat →
  let result := serve (attachDisk env teamName vmName body) (start fs) in
  result.2 = start fs
  ∧ (result.1 = Panicked ∨ status_of result.1 = Some StatusBadRequest)
  ∧ (result.1 = Panicked ↔
       ∃ data, AttachDisk.Decode body = Some data
               ∧ AttachDisk.VolumeID data ≠ "" ∧ AttachDisk.InstanceID data ≠ "").
Proof.
  intros Hpid result. subst result.
  destruct (AttachDisk.Decode body) as [data|] eqn:Hdec.
  2: { unfold serve, attachDisk. rewrite Hdec. simpl.
       repeat split; [by right|done|]. by intros (? & [=] & _). }
  destruct (decide (AttachDisk.VolumeID data = "")) as [Hvol|Hvol].
  { unfold serve, attachDisk. rewrite Hdec, Hvol. simpl.
    repeat split; [by right|done|]. intros (? & [= <-] & ? & _). done. }
  destruct (decide (AttachDisk.InstanceID data = "")) as [Hinst|Hinst].
  { unfold serve, attachDisk. rewrite Hdec, Hinst. simpl. rewrite orb_true_r.
    repeat split; [by right|done|]. intros (? & [= <-] & _ & ?). done. }
  rewrite (attachDisk_short_pid env fs teamName vmName body data) by done.
  repeat split; [by left|]. intros _. by exists data.
Qed.

Lemma attachDisk_short_pid_no_effect_witness :
  let result :=
    serve (attachDisk Scenario.env "teamA" "vm1"
             (Some (JObj [("volumeId", JStr "vol1"); ("instanceId", JStr "i-1")])))
      (start ∅) in
  result.2 = start ∅
  ∧ (result.1 = Panicked ∨ status_of result.1 = Some StatusBadRequest)
  ∧ (result.1 = Panicked ↔
       ∃ data,
         AttachDisk.Decode
           (Some (JObj [("volumeId", JStr "vol1"); ("instanceId", JStr "i-1")])) = Some data
         ∧ AttachDisk.VolumeID data ≠ "" ∧ AttachDisk.InstanceID data ≠ "").
Proof.
  apply (attachDisk_short_pid_no_effect Scenario.env "teamA" "vm1"
           (Some (JObj [("volumeId", JStr "vol1"); ("instanceId", JStr "i-1")])) ∅).
  vm_compute. lia.
Defined.

Lemma applyYAML_value env yamlContent filename fs :
  ∃ err, (applyYAML env yamlContent filename (start fs)).1 = Value err.
Proof.
  destruct (applyYAML_cases env yamlContent filename fs)
    as [(e & _ & Hw)|[(doc & e & partial & _ & _ & Hr & _)|(doc & _ & _ & Hr & _)]].
  - rewrite Hw. by eexists.
  - rewrite Hr. by eexists.
  - rewrite Hr. by eexists.
Qed.

(** A 200 of [attachDisk] names the attachment after the VM and the pid. *)
Lemma attachDisk_ok_answer env teamName vmName body fs :
  status_of (serve (attachDisk env teamName vmName body) (start fs)).1 = Some StatusOK →
  (serve (attachDisk env teamName vmName body) (start fs)).1
  = Responded (encode_message {[
      "message" := "Disk attachment request sent: " ++ attachment_name env vmName ]}).
Proof.
  unfold serve, attachDisk, attachment_name.
  destruct (AttachDisk.Decode body) as [data|]; [|done].
  destruct (_ || _); [done|].
  destruct (_ <? _)%nat; [done|].
  unfold defer, mbind, M_bind.
  match goal with
  | |- context [applyYAML ?e ?v ?f (start ?s)] =>
      destruct (applyYAML_value e v f s) as [err Herr];
      destruct (applyYAML e v f (start s)) as [res w']
  end.
  simpl in Herr. subst res. by destruct err.
Qed.

(** X14: the name of an attachment depends on the VM and on the process
    only, not on the volume or the instance: two requests for one VM that
    are both answered 200 are answered the same, with the same attachment
    name. *)
Theorem attachDisk_one_name
    (env : Env) (teamName vmName : string) (body1 body2 : option json)
    (fs1 fs2 : gmap string string) :
  status_of (serve (attachDisk env teamName vmName body1) (start fs1)).1 = Some StatusOK →
  status_of (serve (attachDisk env teamName vmName body2) (start fs2)).1 = Some StatusOK →
  (serve (attachDisk env teamName vmName body1) (start fs1)).1
  = (serve (attachDisk env teamName vmName body2) (start fs2)).1
  ∧ (serve (attachDisk env teamName vmName body1) (start fs1)).1
    = Responded (encode_message {[
        "message" := "Disk attachment request sent: " ++ attachment_name env vmName ]}).
Proof.
  intros H1 H2.
  by rewrite (attachDisk_ok_answer _ _ _ _ _ H1), (attachDisk_ok_answer _ _ _ _ _ H2).
Qed.

Lemma attachDisk_one_name_witness :
  (serve (attachDisk Sample.env "teamA" "vm1"
            (Some (JObj [("volumeId", JStr "vol1"); ("instanceId", JStr "i-1")])))
     (start ∅)).1
  = (serve (attachDisk Sample.env "teamA" "vm1"
              (Some (JObj [("volumeId", JStr "vol2"); ("instanceId", JStr "i-1")])))
       (start ∅)).1
  ∧ (serve (attachDisk Sample.env "teamA" "vm1"
              (Some (JObj [("volumeId", JStr "vol1"); ("instanceId", JStr "i-1")])))
       (start ∅)).1
    = Responded (encode_message {[
        "message" := "Disk attachment request sent: " ++ attachment_name Sample.env "vm1" ]}).
Proof.
  apply (attachDisk_one_name Sample.env "teamA" "vm1"); reflexivity.
Defined.

(** ** createBlockVolume *)

(** X15: [createBlockVolume] refuses a size of 0 only: any other size,
    negative ones too, is put in the manifest as it is, and the marshalled
    manifest is what is written to the transient file. *)
Theorem createBlockVolume_any_size
    (env : Env) (teamName : string) (body : option json) (fs : gmap string string)
    (data : CreateBlockVolume.data) (doc : string) :
  CreateBlockVolume.Decode body = Some data →
  CreateBlockVolume.Name data ≠ "" →
  CreateBlockVolume.Size data ≠ 0 →
  yaml_Marshal env (volumeManifest teamName data) = inr doc →
  (spec ← member "spec" (volumeManifest teamName data);
   forProvider ← member "forProvider" spec;
   member "size" forProvider) = Some (VInt (CreateBlockVolume.Size data))
  ∧ head (trace (serve (createBlockVolume env teamName body) (start fs)).2)
    = Some (EvWriteFile
              (filepath_Join env (TempDir env) (CreateBlockVolume.Name data ++ "-block.yaml"))
              doc).
Proof.
  intros Hdec Hname%String.eqb_neq Hsize%Z.eqb_neq Hdoc. split; [reflexivity|].
  rewrite serve_world. unfold createBlockVolume. rewrite Hdec; simpl.
  rewrite Hname, Hsize; simpl.
  unfold volumeManifest in Hdoc. rewrite Hdoc.
  unfold defer, mbind, M_bind, ioutil_WriteFile, cmd_Run, os_Remove, start; simpl.
  destruct (WriteFile_fault env _ doc) as [[err [partial|]]|]; simpl; try done.
  by destruct (run_err _).
Qed.

Lemma createBlockVolume_any_size_witness :
  (spec ← member "spec" (volumeManifest "teamA" (CreateBlockVolume.Data "data" (-5) ""));
   forProvider ← member "forProvider" spec;
   member "size" forProvider) = Some (VInt (-5))
  ∧ head (trace (serve (createBlockVolume Sample.env "teamA"
                          (Some (JObj [("name", JStr "data"); ("size", JNum (NInt (-5)))])))
                   (start ∅)).2)
    = Some (EvWriteFile "/tmp/data-block.yaml" "kind: VolumeV3").
Proof.
  apply (createBlockVolume_any_size Sample.env "teamA"
           (Some (JObj [("name", JStr "data"); ("size", JNum (NInt (-5)))])) ∅
           (CreateBlockVolume.Data "data" (-5) "") "kind: VolumeV3").
  - reflexivity.
  - discriminate.
  - discriminate.
  - reflexivity.
Defined.

(** ** handleVMAction *)

Lemma busy_check_false statusData :
  not_busy statusData ↔
  match task_state statusData with
  | Some taskState => negb (taskState =? "")%string
  | None => false
  end = false.
Proof.
  unfold not_busy, task_state.
  destruct (statusData !! "OS-EXT-STS:task_state") as [[| | | |s| | | | | |]|]; try done.
  split.
  - intros Hs. by rewrite (Hs s eq_refl).
  - intros Hs taskState [= <-]. apply negb_false_iff in Hs. by apply String.eqb_eq.
Qed.

Lemma action_command_None teamName vmName action :
  action_command teamName vmName action = None ↔
  action ≠ "start" ∧ action ≠ "stop" ∧ action ≠ "delete".
Proof.
  unfold action_command.
  destruct (String.eqb_spec action "start") as [->|H1];
    [split; [done|by intros [? _]]|].
  destruct (String.eqb_spec action "stop") as [->|H2];
    [split; [done|by intros (_ & ? & _)]|].
  destruct (String.eqb_spec action "delete") as [->|H3];
    [split; [done|by intros (_ & _ & ?)]|].
  done.
Qed.

Section ActionMore.
Context (env : Env) (teamName vmName action : string) (fs : gmap string string).

(** Past the busy check, the handler is the [switch] and the run. *)
Lemma handleVMAction_not_busy statusData :
  run_err (Run env (statusCmd vmName) fs) = None →
  json_Unmarshal env (run_stdout (Run env (statusCmd vmName) fs)) = inr statusData →
  not_busy statusData →
  handleVMAction env teamName vmName action (start fs)
  = run_action env teamName vmName action (World fs [EvRun (statusCmd vmName)]).
Proof.
  intros Hrun Hjson Hquiet%busy_check_false.
  unfold handleVMAction, mbind, M_bind, cmd_Run, start; simpl.
  rewrite Hrun, Hjson.
  destruct (task_state statusData) as [taskState|]; [|done].
  by rewrite Hquiet.
Qed.

(** X16: when the status query succeeds and reports no transition (no
    [task_state], one that is not a string, or the empty string), a start,
    stop or delete runs its command, once, after the status query; the
    answer is 200 with the output of the command, or 500 if it failed. *)
Theorem handleVMAction_proceeds statusData cmd :
  run_err (Run env (statusCmd vmName) fs) = None →
  json_Unmarshal env (run_stdout (Run env (statusCmd vmName) fs)) = inr statusData →
  not_busy statusData →
  action_command teamName vmName action = Some cmd →
  serve (handleVMAction env teamName vmName action) (start fs)
  = (Responded
       match run_err (Run env cmd fs) with
       | Some err =>
           http_ErrorOf ("Failed to execute action '" ++ action ++ "' on VM '"
                           ++ vmName ++ "': %v" ++ newline ++ "%s")
             err (run_stderr (Run env cmd fs)) StatusInternalServerError
       | None =>
           encode_message {[
             "message" := "Action '" ++ action ++ "' executed on VM '"
               ++ vmName ++ "'. Output:" ++ newline ++ run_stdout (Run env cmd fs) ]}
       end,
     World fs [EvRun (statusCmd vmName); EvRun cmd]).
Proof.
  intros Hrun Hjson Hquiet Hcmd. unfold serve.
  rewrite (handleVMAction_not_busy statusData) by done.
  unfold run_action. rewrite Hcmd.
  unfold mbind, M_bind, cmd_Run; simpl. by destruct (run_err (Run env cmd fs)).
Qed.

(** X17: the action is looked at after the busy check only.  For an action
    that is not start, stop or delete, the status query is still run, and
    it is the only command run; with no transition under way the answer is
    the 400 that names the action. *)
Theorem handleVMAction_unsupported :
  action ≠ "start" → action ≠ "stop" → action ≠ "delete" →
  let result := serve (handleVMAction env teamName vmName action) (start fs) in
  result.2 = World fs [EvRun (statusCmd vmName)]
  ∧ ∀ statusData,
      run_err (Run env (statusCmd vmName) fs) = None →
      json_Unmarshal env (run_stdout (Run env (statusCmd vmName) fs)) = inr statusData →
      not_busy statusData →
      result.1 = Responded (http_Error ("Unsupported action '" ++ action ++ "'.")
                              StatusBadRequest).
Proof.
  intros H1 H2 H3 result. subst result.
  assert (Hnone : action_command teamName vmName action = None)
    by by apply action_command_None.
  split.
  - rewrite serve_world.
    unfold handleVMAction, mbind, M_bind, cmd_Run, start; simpl.
    destruct (run_err _); [done|].
    destruct (json_Unmarshal env _) as [err|statusData]; [done|].
    unfold run_action. rewrite Hnone.
    destruct (task_state statusData) as [taskState|]; [|done].
    by destruct (negb _).
  - intros statusData Hrun Hjson Hquiet. unfold serve.
    rewrite (handleVMAction_not_busy statusData) by done.
    unfold run_action. by rewrite Hnone.
Qed.

(** X18: [handleVMAction] answers 200 exactly when the status query ran
    and was parsed, it reported no transition, the action is start, stop or
    delete, and the command of the action ran without error. *)
Theorem handleVMAction_ok_iff :
  status_of (serve (handleVMAction env teamName vmName action) (start fs)).1 = Some StatusOK
  ↔ run_err (Run env (statusCmd vmName) fs) = None
    ∧ ∃ statusData cmd,
        json_Unmarshal env (run_stdout (Run env (statusCmd vmName) fs)) = inr statusData
        ∧ not_busy statusData
        ∧ action_command teamName vmName action = Some cmd
        ∧ run_err (Run env cmd fs) = None.
Proof.
  split.
  - unfold serve, handleVMAction, mbind, M_bind, cmd_Run, start; simpl.
    destruct (run_err (Run env (statusCmd vmName) fs)) eqn:Hrun; [done|].
    destruct (json_Unmarshal env _) as [err|statusData] eqn:Hjson; [done|].
    assert (Hgo : status_of (serve (run_action env teamName vmName action)
                               (World fs [EvRun (statusCmd vmName)])).1 = Some StatusOK →
                  ∃ cmd, action_command teamName vmName action = Some cmd
                         ∧ run_err (Run env cmd fs) = None).
    { unfold serve, run_action.
      destruct (action_command teamName vmName action) as [cmd|]; [|done].
      unfold mbind, M_bind, cmd_Run; simpl.
      destruct (run_err (Run env cmd fs)) eqn:Hcmd; [done|]. by exists cmd. }
    unfold serve in Hgo.
    destruct (task_state statusData) as [taskState|] eqn:Hstate.
    + destruct (negb _) eqn:Hbusy; [done|]. intros Hok.
      destruct (Hgo Hok) as (cmd & Hcmd & Hran).
      split; [done|]. exists statusData, cmd. repeat split; try done.
      apply busy_check_false. by rewrite Hstate.
    + intros Hok. destruct (Hgo Hok) as (cmd & Hcmd & Hran).
      split; [done|]. exists statusData, cmd. repeat split; try done.
      apply busy_check_false. by rewrite Hstate.
  - intros (Hrun & statusData & cmd & Hjson & Hquiet & Hcmd & Hran).
    unfold serve. rewrite (handleVMAction_not_busy statusData) by done.
    unfold run_action. rewrite Hcmd.
    unfold mbind, M_bind, cmd_Run; simpl. by rewrite Hran.
Qed.
End ActionMore.

Lemma handleVMAction_proceeds_witness :
  serve (handleVMAction Scenario.env "teamA" "vm1" "stop") (start ∅)
  = (Responded (encode_message {[
       "message" := "Action '" ++ "stop" ++ "' executed on VM '" ++ "vm1"
         ++ "'. Output:" ++ newline ++ "" ]}),
     World ∅ [EvRun (statusCmd "vm1");
              EvRun (bash ("source " ++ script ++ " && openstack server stop " ++ "vm1"))]).
Proof.
  apply (handleVMAction_proceeds Scenario.env "teamA" "vm1" "stop" ∅ ∅
           (bash ("source " ++ script ++ " && openstack server stop " ++ "vm1"))).
  - reflexivity.
  - reflexivity.
  - intros taskState [=].
  - reflexivity.
Defined.

Lemma handleVMAction_unsupported_witness :
  let result := serve (handleVMAction Scenario.env "teamA" "vm1" "reboot") (start ∅) in
  result.2 = World ∅ [EvRun (statusCmd "vm1")]
  ∧ ∀ statusData,
      run_err (Run Scenario.env (statusCmd "vm1") ∅) = None →
      json_Unmarshal Scenario.env (run_stdout (Run Scenario.env (statusCmd "vm1") ∅))
      = inr statusData →
      not_busy statusData →
      result.1 = Responded (http_Error ("Unsupported action '" ++ "reboot" ++ "'.")
                              StatusBadRequest).
Proof.
  apply (handleVMAction_unsupported Scenario.env "teamA" "vm1" "reboot" ∅); discriminate.
Defined.

Lemma handleVMAction_ok_iff_witness :
  status_of (serve (handleVMAction Scenario.env "teamA" "vm1" "start") (start ∅)).1
  = Some StatusOK.
Proof.
  apply (handleVMAction_ok_iff Scenario.env "teamA" "vm1" "start" ∅).
  split; [reflexivity|].
  exists ∅, (bash ("source " ++ script ++ " && openstack server start " ++ "vm1")).
  repeat split. intros taskState [=].
Defined.

(** ** deleteVM and getTeam *)

(** X19: [deleteVM] asks for no status: it runs [kubectl delete] and
    nothing else, and answers 200 exactly when that succeeded.  Where the
    delete of the action route is refused with 409 because a transition is
    under way, [deleteVM] deletes all the same. *)
Theorem deleteVM_no_busy_check
    (env : Env) (teamID resourceID : string) (fs : gmap string string) :
  let result := serve (deleteVM env teamID resourceID) (start fs) in
  result.2 = World fs [EvRun (delete_command teamID resourceID)]
  ∧ (status_of result.1 = Some StatusOK
     ↔ run_err (Run env (delete_command teamID resourceID) fs) = None)
  ∧ (status_of result.1 = Some StatusInternalServerError
     ↔ is_Some (run_err (Run env (delete_command teamID resourceID) fs)))
  ∧ ∀ statusData taskState,
      run_err (Run env (statusCmd resourceID) fs) = None →
      json_Unmarshal env (run_stdout (Run env (statusCmd resourceID) fs)) = inr statusData →
      statusData !! "OS-EXT-STS:task_state" = Some (VString taskState) →
      taskState ≠ "" →
      status_of (serve (handleVMAction env teamID resourceID "delete") (start fs)).1
      = Some StatusConflict
      ∧ EvRun (delete_command teamID resourceID) ∈ trace result.2.
Proof.
  cbv zeta. unfold serve at 1 2 3, deleteVM, mbind, M_bind, cmd_Run, start; simpl.
  split; [by destruct (run_err _)|]. split; [|split].
  - destruct (run_err _); simpl; split; done.
  - destruct (run_err _); simpl; split; done.
  - intros statusData taskState Hrun Hjson Hstate Hne%String.eqb_neq. split.
    + unfold serve, handleVMAction, mbind, M_bind, cmd_Run, start; simpl.
      rewrite Hrun, Hjson. unfold task_state. rewrite Hstate. by rewrite Hne.
    + unfold serve, deleteVM, mbind, M_bind, cmd_Run, start; simpl.
      destruct (run_err (Run env (delete_command teamID resourceID) fs));
        apply list_elem_of_here.
Qed.

Lemma deleteVM_no_busy_check_witness :
  status_of (serve (handleVMAction Sample.env "teamA" "vm1" "delete") (start ∅)).1
  = Some StatusConflict
  ∧ EvRun (delete_command "teamA" "vm1")
    ∈ trace (serve (deleteVM Sample.env "teamA" "vm1") (start ∅)).2.
Proof.
  apply (deleteVM_no_busy_check Sample.env "teamA" "vm1" ∅)
    with (statusData := {[ "OS-EXT-STS:task_state" := VString "powering-on" ]})
         (taskState := "powering-on").
  - reflexivity.
  - reflexivity.
  - reflexivity.
  - discriminate.
Defined.

(** X20: [getTeam] only reads: it runs [kubectl get namespace] and nothing
    else; it answers 500 when the command fails or its output is not
    parsed, and otherwise encodes the parsed value as it is. *)
Theorem getTeam_read_only
    (env : Env) (json_Unmarshal_any : string → error + value) (teamID : string)
    (fs : gmap string string) :
  let result := getTeam env json_Unmarshal_any teamID (start fs) in
  let out := Run env (get_command teamID) fs in
  result.2 = World fs [EvRun (get_command teamID)]
  ∧ (∀ v, result.1 = Value v
          ↔ run_err out = None ∧ json_Unmarshal_any (run_stdout out) = inr v)
  ∧ ((is_Some (run_err out) ∨ ∃ err, json_Unmarshal_any (run_stdout out) = inl err) →
     ∃ r, result.1 = Return r ∧ status r = StatusInternalServerError).
Proof.
  cbv zeta. unfold getTeam, mbind, M_bind, cmd_Run, start; simpl.
  destruct (run_err _) as [err|] eqn:Hrun; simpl.
  - split; [done|]. split; [|by eexists].
    intros v. split; [done|]. by intros [[=] _].
  - destruct (json_Unmarshal_any _) as [err|v'] eqn:Hjson; simpl.
    + split; [done|]. split; [|by eexists].
      intros v. split; [done|]. by intros [_ [=]].
    + split; [done|]. split.
      * intros v. split; [by intros [= <-]|by intros [_ [= <-]]].
      * intros [[? [=]]|[? [=]]].
Qed.

Lemma getTeam_read_only_witness :
  ∃ r,
    (getTeam Sample.env_down Scenario.unmarshal_any "teamA" (start ∅)).1 = Return r
    ∧ status r = StatusInternalServerError.
Proof.
  apply (getTeam_read_only Sample.env_down Scenario.unmarshal_any "teamA" ∅).
  left. eexists. reflexivity.
Defined.

(** ** The routes *)

Lemma plain_var s : plain s = true → var_segment s = true.
Proof. unfold plain. by intros [[? _]%andb_true_iff _]%andb_true_iff. Qed.

Lemma plain_clean s : plain s = true →
  negb (s =? "")%string && negb (s =? ".")%string && negb (s =? "..")%string = true.
Proof.
  unfold plain, var_segment.
  intros [[[-> _]%andb_true_iff ->]%andb_true_iff ->]%andb_true_iff. done.
Qed.

(** A matched template binds each of its variables to a non-empty
    segment. *)
Lemma match_path_binds template path vars x :
  match_path template path = Some vars →
  Var x ∈ template →
  ∃ v, vars !! x = Some v ∧ v ≠ "".
Proof.
  revert path vars. induction template as [|[s|y] template IH]; intros path vars.
  - by intros _ ?%elem_of_nil.
  - destruct path as [|p path]; [done|]. simpl.
    destruct (s =? p)%string; [|done]. intros Hm Hin.
    apply elem_of_cons in Hin as [[=]|Hin]. by eapply IH.
  - destruct path as [|p path]; [done|]. simpl.
    destruct (var_segment p) eqn:Hp; [|done].
    destruct (match_path template path) as [vars'|] eqn:Hrest; [|done].
    intros [= <-] Hin.
    destruct (decide (y = x)) as [->|Hne].
    + exists p. rewrite lookup_insert_eq. split; [done|].
      intros ->. by vm_compute in Hp.
    + rewrite lookup_insert_ne by done.
      apply elem_of_cons in Hin as [[=]|Hin]; [done|]. by eapply IH.
Qed.

(** The route that [route_match] takes. *)
Lemma route_match_Some rs method path h vars :
  route_match rs method path = Some (h, vars) →
  ∃ r, r ∈ rs ∧ route_handler r = h ∧ route_method r = method
       ∧ match_path (route_path r) path = Some vars.
Proof.
  induction rs as [|r rs IH]; [done|]. simpl.
  destruct (match_path (route_path r) path) as [vars'|] eqn:Hm.
  - destruct (String.eqb_spec (route_method r) method) as [Heq|Hne].
    + intros [= <- <-]. exists r. split; [apply list_elem_of_here|done].
    + intros (r' & Hin & ?)%IH. exists r'. split; [by apply list_elem_of_further|done].
  - intros (r' & Hin & ?)%IH. exists r'. split; [by apply list_elem_of_further|done].
Qed.

(** In the table of [main], the template of each route has the variables
    its handler reads. *)
Lemma routes_bind :
  Forall (λ r, Forall (λ name, Var name ∈ route_path r) (reads (route_handler r))) routes.
Proof.
  unfold routes.
  repeat (apply Forall_cons; split); try apply Forall_nil; simpl;
    repeat (apply Forall_cons; split); try apply Forall_nil;
    eauto 10 using list_elem_of_here, list_elem_of_further.
Qed.

(** X21: every variable a handler reads is bound by the route that leads
    to it, and to a non-empty value: no handler is run with an empty team,
    VM, resource or action name. *)
Theorem route_binds_what_handler_reads
    (method : string) (path : list string) (h : handler) (vars : gmap string string)
    (name : string) :
  route_match routes method path = Some (h, vars) →
  name ∈ reads h →
  ∃ v, vars !! name = Some v ∧ var vars name = v ∧ v ≠ "".
Proof.
  intros (r & Hin & <- & _ & Hm)%route_match_Some Hname.
  assert (Hvar : Var name ∈ route_path r).
  { pose proof routes_bind as Hall.
    rewrite Forall_forall in Hall. specialize (Hall r Hin).
    rewrite Forall_forall in Hall. by apply Hall. }
  destruct (match_path_binds _ _ _ _ Hm Hvar) as (v & Hv & Hne).
  exists v. unfold var. by rewrite Hv.
Qed.

Lemma route_binds_what_handler_reads_witness :
  ∃ v, ({[ "team_id" := "teamA"; "resource_id" := "web" ]} : gmap string string)
         !! "resource_id" = Some v
       ∧ var {[ "team_id" := "teamA"; "resource_id" := "web" ]} "resource_id" = v
       ∧ v ≠ "".
Proof.
  apply (route_binds_what_handler_reads "PUT" ["teams"; "teamA"; "vm"; "web"; "scale"]
           HscaleVM).
  - reflexivity.
  - apply list_elem_of_further, list_elem_of_here.
Defined.

(** Comparisons of two literals, evaluated. *)
Ltac literal_eqb :=
  repeat match goal with
  | |- context [String.eqb ?a ?b] =>
      let r := eval vm_compute in (String.eqb a b) in
      match r with
      | true => change (String.eqb a b) with true
      | false => change (String.eqb a b) with false
      end
  end.

Section Routing.
Context (env : Env) (json_Unmarshal_any : string → error + value).
Context (T V : string) (body : option json).
Hypothesis HT : plain T = true.
Hypothesis HV : plain V = true.

(** X22: [resize] and [scale] are registered before the action route, and
    are served by their own handlers, not as actions. *)
Theorem resize_and_scale_before_actions :
  ServeHTTP env json_Unmarshal_any "PUT" ["teams"; T; "vm"; V; "resize"] body
  = Served (Handle (resizeVM env T V body))
  ∧ ServeHTTP env json_Unmarshal_any "PUT" ["teams"; T; "vm"; V; "scale"] body
    = Served (Handle (scaleVM env T V body)).
Proof.
  unfold ServeHTTP, routes.
  split; cbn -[String.eqb var_segment]; literal_eqb; cbn -[String.eqb var_segment];
    rewrite (plain_clean _ HT), (plain_clean _ HV), (plain_var _ HT), (plain_var _ HV);
    cbn -[String.eqb var_segment]; unfold var; by simplify_map_eq.
Qed.

(** X23: every other PUT on a VM is an action: whatever stands in the
    place of the action, [attach-disk] too, goes to [handleVMAction] with
    it. *)
Theorem other_puts_are_actions (A : string) :
  plain A = true →
  A ≠ "resize" → A ≠ "scale" →
  ServeHTTP env json_Unmarshal_any "PUT" ["teams"; T; "vm"; V; A] body
  = Served (Handle (handleVMAction env T V A)).
Proof.
  intros HA Hresize%String.eqb_neq Hscale%String.eqb_neq.
  assert (HA' : negb (A =? ".")%string && negb (A =? "..")%string = true).
  { apply plain_clean in HA. by destruct (A =? "")%string. }
  unfold ServeHTTP, routes.
  cbn -[String.eqb var_segment]; literal_eqb; cbn -[String.eqb var_segment].
  rewrite (plain_clean _ HT), (plain_clean _ HV), HA',
    (plain_var _ HT), (plain_var _ HV), (plain_var _ HA).
  rewrite (String.eqb_sym "resize"), Hresize, (String.eqb_sym "scale"), Hscale.
  cbn -[String.eqb var_segment].
  destruct ("attach-disk" =? A)%string; cbn -[String.eqb var_segment];
    unfold var; by simplify_map_eq.
Qed.
End Routing.

Lemma resize_and_scale_before_actions_witness :
  ServeHTTP Sample.env Scenario.unmarshal_any "PUT" ["teams"; "teamA"; "vm"; "vm1"; "resize"]
    Sample.f2_body
  = Served (Handle (resizeVM Sample.env "teamA" "vm1" Sample.f2_body))
  ∧ ServeHTTP Sample.env Scenario.unmarshal_any "PUT" ["teams"; "teamA"; "vm"; "vm1"; "scale"]
      Sample.f2_body
    = Served (Handle (scaleVM Sample.env "teamA" "vm1" Sample.f2_body)).
Proof.
  apply (resize_and_scale_before_actions Sample.env Scenario.unmarshal_any
           "teamA" "vm1" Sample.f2_body); reflexivity.
Defined.

Lemma other_puts_are_actions_witness :
  ServeHTTP Sample.env Scenario.unmarshal_any "PUT"
    ["teams"; "teamA"; "vm"; "vm1"; "attach-disk"] None
  = Served (Handle (handleVMAction Sample.env "teamA" "vm1" "attach-disk")).
Proof.
  apply (other_puts_are_actions Sample.env Scenario.unmarshal_any "teamA" "vm1" None
           eq_refl eq_refl "attach-disk"); [reflexivity|discriminate..].
Defined.

(** X24: [handleVMAction] is reached by a PUT on [/teams/T/vm/V/A] only,
    and never with [resize] or [scale] as its action. *)
Theorem action_route_only
    (method : string) (path : list string) (vars : gmap string string) :
  route_match routes method path = Some (HhandleVMAction, vars) →
  method = "PUT"
  ∧ ∃ T V A,
      path = ["teams"; T; "vm"; V; A]
      ∧ var vars "team_name" = T ∧ var vars "vm_name" = V ∧ var vars "action" = A
      ∧ A ≠ "resize" ∧ A ≠ "scale".
Proof.
  intros Hroute.
  destruct (route_match_Some _ _ _ _ _ Hroute) as (r & Hin & Hh & Hmethod & Hm).
  unfold routes in Hin.
  repeat (apply elem_of_cons in Hin as [->|Hin]; [try discriminate Hh|]);
    [|by apply elem_of_nil in Hin].
  simpl in Hmethod. subst method. split; [done|].
  cbn -[String.eqb var_segment] in Hm.
  destruct path as [|s1 [|T [|s3 [|V [|A [|? ?]]]]]]; try done;
    cbn -[String.eqb var_segment] in Hm;
    repeat match type of Hm with
    | context [String.eqb ?a ?b] => destruct (String.eqb_spec a b); [subst|done]
    | context [var_segment ?s] => destruct (var_segment s) eqn:?; [|done]
    end; cbn -[String.eqb var_segment] in Hm; try done.
  exists T, V, A.
  unfold routes in Hroute.
  cbn -[String.eqb var_segment] in Hroute.
  repeat match type of Hroute with
  | context [var_segment ?s] =>
      match goal with H : var_segment s = true |- _ => rewrite H in Hroute end
  end.
  revert Hroute. literal_eqb. cbn -[String.eqb var_segment].
  destruct (String.eqb_spec "resize" A) as [<-|Hresize]; [done|].
  destruct (String.eqb_spec "scale" A) as [<-|Hscale]; [done|].
  cbn -[String.eqb var_segment].
  destruct ("attach-disk" =? A)%string; cbn -[String.eqb var_segment];
    intros [= <-]; unfold var; simplify_map_eq; by repeat split.
Qed.

Lemma action_route_only_witness :
  "PUT" = "PUT"
  ∧ ∃ T V A,
      ["teams"; "teamA"; "vm"; "vm1"; "stop"] = ["teams"; T; "vm"; V; A]
      ∧ var {[ "team_name" := "teamA"; "vm_name" := "vm1"; "action" := "stop" ]}
          "team_name" = T
      ∧ var {[ "team_name" := "teamA"; "vm_name" := "vm1"; "action" := "stop" ]}
          "vm_name" = V
      ∧ var {[ "team_name" := "teamA"; "vm_name" := "vm1"; "action" := "stop" ]}
          "action" = A
      ∧ A ≠ "resize" ∧ A ≠ "scale".
Proof.
  apply (action_route_only "PUT" ["teams"; "teamA"; "vm"; "vm1"; "stop"]).
  reflexivity.
Defined.

(** ** Bad requests *)

Section BadRequest.
Context (env : Env) (body : option json) (fs : gmap string string).

Ltac after_apply :=
  unfold defer, mbind, M_bind;
  match goal with
  | |- context [applyYAML ?e ?v ?f (start ?s)] =>
      let err := fresh "err" in
      let Herr := fresh "Herr" in
      let res := fresh "res" in
      destruct (applyYAML_value e v f s) as [err Herr];
      destruct (applyYAML e v f (start s)) as [res ?];
      simpl in Herr; subst res; by destruct err
  end.

(** X25: a 400 of a handler that takes a body means that nothing was done:
    no file was looked for, read, written or removed and no command was
    run.  (The action route has no body, and its 400 comes after the status
    query.) *)
Theorem bad_request_no_effect (team name : string) :
  (status_of (serve (registerTeam env body) (start fs)).1 = Some StatusBadRequest →
   (serve (registerTeam env body) (start fs)).2 = start fs)
  ∧ (status_of (serve (createVM env team body) (start fs)).1 = Some StatusBadRequest →
     (serve (createVM env team body) (start fs)).2 = start fs)
  ∧ (status_of (serve (resizeVM env team name body) (start fs)).1 = Some StatusBadRequest →
     (serve (resizeVM env team name body) (start fs)).2 = start fs)
  ∧ (status_of (serve (scaleVM env team name body) (start fs)).1 = Some StatusBadRequest →
     (serve (scaleVM env team name body) (start fs)).2 = start fs)
  ∧ (status_of (serve (attachDisk env team name body) (start fs)).1 = Some StatusBadRequest →
     (serve (attachDisk env team name body) (start fs)).2 = start fs)
  ∧ (status_of (serve (createBlockVolume env team body) (start fs)).1
       = Some StatusBadRequest →
     (serve (createBlockVolume env team body) (start fs)).2 = start fs).
Proof.
  repeat split.
  - unfold serve, registerTeam.
    destruct (RegisterTeam.Decode body) as [data|]; [|done]. simpl.
    destruct (_ =? _)%string; [done|]. after_apply.
  - unfold serve, createVM.
    destruct (CreateVM.Decode body) as [data|]; [|done].
    destruct (_ || _); [done|]. after_apply.
  - unfold serve, resizeVM.
    destruct (ResizeVM.Decode body) as [data|]; [|done].
    destruct (_ =? _)%string; [done|].
    unfold mbind, M_bind, os_Stat_IsNotExist, ioutil_ReadFile, start; simpl.
    destruct (bool_decide _ && bool_decide _); [done|]. simpl.
    destruct (fs !! _); [|done].
    destruct (ReadFile_fault env _); [done|].
    destruct (yaml_Unmarshal env _); [done|].
    unfold applyYAML. destruct (yaml_Marshal env _); [done|].
    unfold mbind, M_bind, ioutil_WriteFile, cmd_Run; simpl.
    destruct (WriteFile_fault env _ _) as [[? [?|]]|]; simpl; [done..|].
    by destruct (run_err _).
  - unfold serve, scaleVM.
    destruct (ScaleVM.Decode body) as [[[replicas|]]|]; [|done..]. simpl.
    unfold mbind, M_bind, cmd_Run, start; simpl. by destruct (run_err _).
  - unfold serve, attachDisk.
    destruct (AttachDisk.Decode body) as [data|]; [|done].
    destruct (_ || _); [done|].
    destruct (_ <? _)%nat; [done|]. after_apply.
  - unfold serve, createBlockVolume.
    destruct (CreateBlockVolume.Decode body) as [data|]; [|done]. simpl.
    destruct (_ || _); [done|].
    unfold defer, mbind, M_bind, ioutil_WriteFile, cmd_Run, start; simpl.
    destruct (yaml_Marshal env _); [done|]. simpl.
    destruct (WriteFile_fault env _ _) as [[? [?|]]|]; simpl; [done..|].
    by destruct (run_err _).
Qed.
End BadRequest.

Lemma bad_request_no_effect_witness :
  (serve (attachDisk Sample.env "teamA" "vm1" (Some (JObj [("volumeId", JStr "vol1")])))
     (start ∅)).2
  = start ∅.
Proof.
  apply (bad_request_no_effect Sample.env (Some (JObj [("volumeId", JStr "vol1")])) ∅
           "teamA" "vm1").
  reflexivity.
Defined.

(** ** Deleting and the stored manifest *)

(** [handleVMAction] runs the status query, then at most the command of
    the action, and touches no file. *)
Lemma handleVMAction_effects env teamName vmName action fs :
  let w' := (serve (handleVMAction env teamName vmName action) (start fs)).2 in
  files w' = fs
  ∧ (trace w' = [EvRun (statusCmd vmName)]
     ∨ ∃ cmd, action_command teamName vmName action = Some cmd
              ∧ trace w' = [EvRun (statusCmd vmName); EvRun cmd]).
Proof.
  cbv zeta. rewrite serve_world.
  unfold handleVMAction, mbind, M_bind, cmd_Run, start; simpl.
  destruct (run_err _); [by split; [|left]|].
  destruct (json_Unmarshal env _) as [err|statusData]; [by split; [|left]|].
  assert (Hgo : files (run_action env teamName vmName action
                         (World fs [EvRun (statusCmd vmName)])).2 = fs
                ∧ (trace (run_action env teamName vmName action
                            (World fs [EvRun (statusCmd vmName)])).2
                   = [EvRun (statusCmd vmName)]
                   ∨ ∃ cmd, action_command teamName vmName action = Some cmd
                            ∧ trace (run_action env teamName vmName action
                                       (World fs [EvRun (statusCmd vmName)])).2
                              = [EvRun (statusCmd vmName); EvRun cmd])).
  { unfold run_action.
    destruct (action_command teamName vmName action) as [cmd|]; [|by split; [|left]].
    unfold mbind, M_bind, cmd_Run; simpl.
    destruct (run_err _); (split; [done|right; by exists cmd]). }
  destruct (task_state statusData) as [taskState|]; [|done].
  destruct (negb _); [by split; [|left]|done].
Qed.

(** X26: neither way of deleting a VM touches its stored manifest: after
    [deleteVM], and after the delete of the action route, the manifest file
    of the VM is as it was, so a later valid resize of the deleted VM is
    not answered 404. *)
Theorem delete_leaves_manifest
    (env : Env) (teamName vmName : string) (fs : gmap string string) (content : string) :
  fs !! manifest_path env teamName vmName = Some content →
  let direct := (serve (deleteVM env teamName vmName) (start fs)).2 in
  let routed := (serve (handleVMAction env teamName vmName "delete") (start fs)).2 in
  files direct = fs
  ∧ files routed = fs
  ∧ ∀ body data,
      ResizeVM.Decode body = Some data →
      ResizeVM.FlavorID data ≠ "" →
      status_of (serve (resizeVM env teamName vmName body) (start (files direct))).1
      ≠ Some StatusNotFound
      ∧ status_of (serve (resizeVM env teamName vmName body) (start (files routed))).1
        ≠ Some StatusNotFound.
Proof.
  intros Hfile direct routed.
  assert (Hdirect : files direct = fs).
  { subst direct. rewrite serve_world.
    unfold deleteVM, mbind, M_bind, cmd_Run, start; simpl. by destruct (run_err _). }
  assert (Hrouted : files routed = fs).
  { subst routed. apply handleVMAction_effects. }
  split; [done|]. split; [done|].
  intros body data Hdec Hflavor. rewrite Hdirect, Hrouted.
  split; by eapply resizeVM_found.
Qed.

Lemma delete_leaves_manifest_witness :
  let fs : gmap string string :=
    {[ manifest_path Scenario.env "teamA" "vm1" := "flavorId: f1" ]} in
  let direct := (serve (deleteVM Scenario.env "teamA" "vm1") (start fs)).2 in
  let routed := (serve (handleVMAction Scenario.env "teamA" "vm1" "delete") (start fs)).2 in
  files direct = fs
  ∧ files routed = fs
  ∧ ∀ body data,
      ResizeVM.Decode body = Some data →
      ResizeVM.FlavorID data ≠ "" →
      status_of (serve (resizeVM Scenario.env "teamA" "vm1" body) (start (files direct))).1
      ≠ Some StatusNotFound
      ∧ status_of (serve (resizeVM Scenario.env "teamA" "vm1" body) (start (files routed))).1
        ≠ Some StatusNotFound.
Proof.
  apply (delete_leaves_manifest Scenario.env "teamA" "vm1" _ "flavorId: f1").
  reflexivity.
Defined.
